(** * horoscope-ai: the record store and its action handlers

    A shallow embedding of [db/tables.ts] (the three Astro DB tables) and of
    [src/actions/index.ts] (the nine server actions), followed by the
    properties of the access-control and query contract.

    Modelling conventions.
    - [string | undefined] is [option string]; a JavaScript [Date] is the
      number of milliseconds since the epoch, an integer.
    - An optional column holds [None] for SQL NULL.  A column compared with
      [eq] against a value never matches NULL.
    - The database is the three tables, each a list of rows in insertion
      order.  Every statement sent to the database is also recorded in a
      journal, so that "no store access happened" is a statement about the
      journal and not only about the tables.
    - The database enforces what [db/tables.ts] declares: a primary key is
      unique, and a reference of a view row names an existing row or is
      NULL, both when the view is inserted and when the row it names is to
      be deleted.  A [.set({})] with no value throws before any statement
      is sent.
    - [new Date()] and [crypto.randomUUID()] are read from a [Runtime] value
      handed to the handler: each handler calls each of them at most once.
    - A handler is a computation in a state-and-exception monad: it either
      returns its response or throws, and in both cases yields the world it
      left behind. *)

From Stdlib Require Import List String ZArith Bool.
Import ListNotations.
Local Open Scope string_scope.
Local Open Scope list_scope.

Set Implicit Arguments.

(** ** JavaScript values *)

Definition Date : Type := Z.

(** [if (s)] on a [string | undefined]: [undefined] and the empty string are
    falsy, every other string is truthy. *)
Definition truthy (s : option string) : bool :=
  match s with
  | None => false
  | Some v => negb (v =? "")
  end.

(** [x !== undefined] *)
Definition defined {A : Type} (x : option A) : bool :=
  match x with
  | Some _ => true
  | None => false
  end.

(** ** db/tables.ts *)

Inductive Table : Type :=
| T_HoroscopeProfiles
| T_DailyHoroscopes
| T_HoroscopeViews.

Module HoroscopeProfiles.
Record row : Type := mk
  { id : string;
    userId : string;
    name : option string;
    birthDate : option Date;
    birthTime : option string;
    birthPlace : option string;
    zodiacSign : option string;
    preferredLanguage : option string;
    notes : option string;
    createdAt : Date;
    updatedAt : Date }.

(** The object handed to [.set(...)]: a key that was never assigned is
    [None] and leaves its column alone. *)
Record updates : Type := mkUpdates
  { set_name : option string;
    set_birthDate : option Date;
    set_birthTime : option string;
    set_birthPlace : option string;
    set_zodiacSign : option string;
    set_preferredLanguage : option string;
    set_notes : option string;
    set_updatedAt : option Date }.

Definition assign {A : Type} (new : option A) (old : option A) : option A :=
  match new with
  | Some v => Some v
  | None => old
  end.

(** No key of the object holds a value. *)
Definition no_values (u : updates) : bool :=
  negb (defined (set_updatedAt u) || defined (set_name u)
        || defined (set_birthDate u) || defined (set_birthTime u)
        || defined (set_birthPlace u) || defined (set_zodiacSign u)
        || defined (set_preferredLanguage u) || defined (set_notes u)).

Definition apply (u : updates) (r : row) : row :=
  {| id := id r;
     userId := userId r;
     name := assign (set_name u) (name r);
     birthDate := assign (set_birthDate u) (birthDate r);
     birthTime := assign (set_birthTime u) (birthTime r);
     birthPlace := assign (set_birthPlace u) (birthPlace r);
     zodiacSign := assign (set_zodiacSign u) (zodiacSign r);
     preferredLanguage := assign (set_preferredLanguage u) (preferredLanguage r);
     notes := assign (set_notes u) (notes r);
     createdAt := createdAt r;
     updatedAt := match set_updatedAt u with
                  | Some d => d
                  | None => updatedAt r
                  end |}.
End HoroscopeProfiles.

Module DailyHoroscopes.
Record row : Type := mk
  { id : string;
    horoscopeDate : Date;
    zodiacSign : string;
    language : option string;
    generalText : string;
    loveText : option string;
    careerText : option string;
    healthText : option string;
    luckyNumber : option string;
    luckyColor : option string;
    mood : option string;
    createdAt : Date }.

Record updates : Type := mkUpdates
  { set_horoscopeDate : option Date;
    set_zodiacSign : option string;
    set_language : option string;
    set_generalText : option string;
    set_loveText : option string;
    set_careerText : option string;
    set_healthText : option string;
    set_luckyNumber : option string;
    set_luckyColor : option string;
    set_mood : option string }.

Definition overwrite {A : Type} (new : option A) (old : A) : A :=
  match new with
  | Some v => v
  | None => old
  end.

Definition assign {A : Type} (new : option A) (old : option A) : option A :=
  match new with
  | Some v => Some v
  | None => old
  end.

(** No key of the object holds a value. *)
Definition no_values (u : updates) : bool :=
  negb (defined (set_horoscopeDate u) || defined (set_zodiacSign u)
        || defined (set_language u) || defined (set_generalText u)
        || defined (set_loveText u) || defined (set_careerText u)
        || defined (set_healthText u) || defined (set_luckyNumber u)
        || defined (set_luckyColor u) || defined (set_mood u)).

Definition apply (u : updates) (r : row) : row :=
  {| id := id r;
     horoscopeDate := overwrite (set_horoscopeDate u) (horoscopeDate r);
     zodiacSign := overwrite (set_zodiacSign u) (zodiacSign r);
     language := assign (set_language u) (language r);
     generalText := overwrite (set_generalText u) (generalText r);
     loveText := assign (set_loveText u) (loveText r);
     careerText := assign (set_careerText u) (careerText r);
     healthText := assign (set_healthText u) (healthText r);
     luckyNumber := assign (set_luckyNumber u) (luckyNumber r);
     luckyColor := assign (set_luckyColor u) (luckyColor r);
     mood := assign (set_mood u) (mood r);
     createdAt := createdAt r |}.
End DailyHoroscopes.

Module HoroscopeViews.
Record row : Type := mk
  { id : string;
    profileId : option string;
    userId : string;
    dailyHoroscopeId : option string;
    viewedAt : Date;
    deviceInfo : option string;
    createdAt : Date }.
End HoroscopeViews.

Record Database : Type := mkDatabase
  { profiles : list HoroscopeProfiles.row;
    horoscopes : list DailyHoroscopes.row;
    views : list HoroscopeViews.row }.

(** ** astro:db, as far as the handlers use it *)

Inductive Access : Type :=
| Select (t : Table)
| Insert (t : Table)
| Update (t : Table)
| Delete (t : Table).

Record World : Type := mkWorld
  { db : Database;
    journal : list Access }.

Inductive ErrorCode : Type :=
| UNAUTHORIZED
| NOT_FOUND
| FORBIDDEN.

(** What a call can end in: an [ActionError] thrown by the handler; the
    [ActionInputError] (code BAD_REQUEST) of an input its schema refuses;
    the database refusing a statement on table [t] because of a primary
    key or of a foreign key; the query builder refusing a [.set({})]
    without values. *)
Inductive Failure : Type :=
| ActionError (code : ErrorCode) (message : string)
| ActionInputError
| UniqueViolation (t : Table)
| ForeignKeyViolation (t : Table)
| NoValuesToSet.

Definition Action (A : Type) : Type := World -> (Failure + A) * World.

Definition ret {A : Type} (a : A) : Action A :=
  fun w => (inr a, w).

Definition throw {A : Type} (e : Failure) : Action A :=
  fun w => (inl e, w).

Definition bind {A B : Type} (m : Action A) (k : A -> Action B) : Action B :=
  fun w =>
    match m w with
    | (inr a, w') => k a w'
    | (inl e, w') => (inl e, w')
    end.

Notation "x <- m ;; k" := (bind m (fun x => k))
  (at level 61, m at next level, right associativity).
Notation "m ;;; k" := (bind m (fun _ => k))
  (at level 61, right associativity).

Definition record (a : Access) (w : World) : World :=
  {| db := db w; journal := journal w ++ [a] |}.

(** A table as the database sees it: where its rows live, which column is
    the primary key, whether the references of a row name existing rows,
    and whether a row is named by a reference of another table. *)
Record TableSpec (R : Type) : Type := mkTableSpec
  { table : Table;
    rows : Database -> list R;
    store : list R -> Database -> Database;
    key : R -> string;
    references_exist : R -> Database -> bool;
    referenced : R -> Database -> bool }.

(** A [references] column: NULL, or the key of a row of the other table. *)
Definition reference_exists (ref : option string) (keys : list string) : bool :=
  match ref with
  | None => true
  | Some k => existsb (fun x => x =? k) keys
  end.

Definition refers_to (ref : option string) (k : string) : bool :=
  match ref with
  | None => false
  | Some x => x =? k
  end.

Definition HoroscopeProfilesT : TableSpec HoroscopeProfiles.row :=
  {| table := T_HoroscopeProfiles;
     rows := profiles;
     store := fun l d =>
       {| profiles := l; horoscopes := horoscopes d; views := views d |};
     key := HoroscopeProfiles.id;
     references_exist := fun _ _ => true;
     referenced := fun r d =>
       existsb (fun v => refers_to (HoroscopeViews.profileId v)
                           (HoroscopeProfiles.id r))
         (views d) |}.

Definition DailyHoroscopesT : TableSpec DailyHoroscopes.row :=
  {| table := T_DailyHoroscopes;
     rows := horoscopes;
     store := fun l d =>
       {| profiles := profiles d; horoscopes := l; views := views d |};
     key := DailyHoroscopes.id;
     references_exist := fun _ _ => true;
     referenced := fun r d =>
       existsb (fun v => refers_to (HoroscopeViews.dailyHoroscopeId v)
                           (DailyHoroscopes.id r))
         (views d) |}.

Definition HoroscopeViewsT : TableSpec HoroscopeViews.row :=
  {| table := T_HoroscopeViews;
     rows := views;
     store := fun l d =>
       {| profiles := profiles d; horoscopes := horoscopes d; views := l |};
     key := HoroscopeViews.id;
     references_exist := fun v d =>
       reference_exists (HoroscopeViews.profileId v)
         (map HoroscopeProfiles.id (profiles d))
       && reference_exists (HoroscopeViews.dailyHoroscopeId v)
            (map DailyHoroscopes.id (horoscopes d));
     referenced := fun _ _ => false |}.

(** Conditions: [eq(column, value)] on a text column, a date column and an
    optional text column, and [and(...)]. *)
Definition Condition (R : Type) : Type := R -> bool.

Definition eq_text {R : Type} (col : R -> string) (v : string) : Condition R :=
  fun r => col r =? v.

Definition eq_date {R : Type} (col : R -> Date) (v : Date) : Condition R :=
  fun r => Z.eqb (col r) v.

Definition eq_opt_text {R : Type} (col : R -> option string) (v : string)
  : Condition R :=
  fun r =>
    match col r with
    | Some x => x =? v
    | None => false
    end.

Definition and_ {R : Type} (cs : list (Condition R)) : Condition R :=
  fun r => forallb (fun c => c r) cs.

(** [db.select().from(T)], with [.where(c)] and [.limit(n)] when given. *)
Definition select {R : Type} (T : TableSpec R)
  (where_ : option (Condition R)) (limit : option nat) : Action (list R) :=
  fun w =>
    let matching :=
      match where_ with
      | Some c => filter c (rows T (db w))
      | None => rows T (db w)
      end in
    let limited :=
      match limit with
      | Some n => firstn n matching
      | None => matching
      end in
    (inr limited, record (Select (table T)) w).

(** [db.insert(T).values(r)]: refused when the primary key is taken or
    when a reference of [r] names no row; nothing is stored then. *)
Definition insert {R : Type} (T : TableSpec R) (r : R) : Action unit :=
  fun w =>
    if existsb (fun x => key T x =? key T r) (rows T (db w))
    then (inl (UniqueViolation (table T)), record (Insert (table T)) w)
    else if negb (references_exist T r (db w))
    then (inl (ForeignKeyViolation (table T)), record (Insert (table T)) w)
    else (inr tt,
          record (Insert (table T))
            {| db := store T (rows T (db w) ++ [r]) (db w);
               journal := journal w |}).

(** [db.update(T).set(u).where(c)].  [no_values] tells that [u] holds no
    value: then [.set] throws and no statement is sent.  Otherwise every
    matching row is rewritten by [u] and the others stay.  (No [u] of the
    handlers holds a key column, so a reference cannot be broken here.) *)
Definition update {R : Type} (T : TableSpec R) (no_values : bool)
  (set : R -> R) (where_ : Condition R) : Action unit :=
  fun w =>
    if no_values
    then (inl NoValuesToSet, w)
    else (inr tt,
          record (Update (table T))
            {| db := store T
                       (map (fun r => if where_ r then set r else r)
                          (rows T (db w)))
                       (db w);
               journal := journal w |}).

(** [db.delete(T).where(c)]: refused, with nothing deleted, when a matching
    row is still named by a reference; there is no cascade. *)
Definition delete {R : Type} (T : TableSpec R) (where_ : Condition R)
  : Action unit :=
  fun w =>
    if existsb (fun r => where_ r && referenced T r (db w)) (rows T (db w))
    then (inl (ForeignKeyViolation (table T)), record (Delete (table T)) w)
    else (inr tt,
          record (Delete (table T))
            {| db := store T
                       (filter (fun r => negb (where_ r)) (rows T (db w)))
                       (db w);
               journal := journal w |}).

(** ** src/actions/index.ts *)

Record User : Type := mkUser
  { user_id : string }.

Record Locals : Type := mkLocals
  { user : option User }.

Record ActionAPIContext : Type := mkContext
  { locals : option Locals }.

(** What [new Date()] and [crypto.randomUUID()] give during one call. *)
Record Runtime : Type := mkRuntime
  { now : Date;
    randomUUID : string }.

Record Response (A : Type) : Type := mkResponse
  { success : bool;
    data : A }.

Record IdData : Type := mkIdData
  { data_id : string }.

Record OwnedIdData : Type := mkOwnedIdData
  { owned_id : string;
    ownerId : string }.

Record ListData (R : Type) : Type := mkListData
  { items : list R;
    total : nat }.

Record HoroscopeData : Type := mkHoroscopeData
  { horoscope : DailyHoroscopes.row }.

(** [context.locals?.user] *)
Definition context_user (context : ActionAPIContext) : option User :=
  match locals context with
  | Some l => user l
  | None => None
  end.

Definition requireUser (context : ActionAPIContext) : Action User :=
  match context_user context with
  | None =>
      throw (ActionError UNAUTHORIZED
               "You must be signed in to perform this action.")
  | Some u => ret u
  end.

Module CreateProfile.
Record input : Type := mk
  { name : option string;
    birthDate : option Date;
    birthTime : option string;
    birthPlace : option string;
    zodiacSign : option string;
    preferredLanguage : option string;
    notes : option string }.
End CreateProfile.

Definition createProfile (rt : Runtime) (input : CreateProfile.input)
  (context : ActionAPIContext) : Action (Response IdData) :=
  user <- requireUser context ;;
  let now := now rt in
  let id := randomUUID rt in
  insert HoroscopeProfilesT
    {| HoroscopeProfiles.id := id;
       HoroscopeProfiles.userId := user_id user;
       HoroscopeProfiles.name := CreateProfile.name input;
       HoroscopeProfiles.birthDate := CreateProfile.birthDate input;
       HoroscopeProfiles.birthTime := CreateProfile.birthTime input;
       HoroscopeProfiles.birthPlace := CreateProfile.birthPlace input;
       HoroscopeProfiles.zodiacSign := CreateProfile.zodiacSign input;
       HoroscopeProfiles.preferredLanguage :=
         CreateProfile.preferredLanguage input;
       HoroscopeProfiles.notes := CreateProfile.notes input;
       HoroscopeProfiles.createdAt := now;
       HoroscopeProfiles.updatedAt := now |} ;;;
  ret {| success := true; data := {| data_id := id |} |}.

Module UpdateProfile.
Record input : Type := mk
  { id : string;
    name : option string;
    birthDate : option Date;
    birthTime : option string;
    birthPlace : option string;
    zodiacSign : option string;
    preferredLanguage : option string;
    notes : option string }.
End UpdateProfile.

(** The [where] clause shared by the owner-scoped profile statements. *)
Definition owned_profile (id : string) (user : User)
  : Condition HoroscopeProfiles.row :=
  and_ [eq_text HoroscopeProfiles.id id;
        eq_text HoroscopeProfiles.userId (user_id user)].

Definition updateProfile (rt : Runtime) (input : UpdateProfile.input)
  (context : ActionAPIContext) : Action (Response IdData) :=
  user <- requireUser context ;;
  found <- select HoroscopeProfilesT
             (Some (owned_profile (UpdateProfile.id input) user)) (Some 1) ;;
  match nth_error found 0 with
  | None => throw (ActionError NOT_FOUND "Profile not found.")
  | Some _existing =>
      (* updates = { updatedAt: new Date() }, then one assignment for each
         input field that is not undefined *)
      let updates :=
        {| HoroscopeProfiles.set_updatedAt := Some (now rt);
           HoroscopeProfiles.set_name := UpdateProfile.name input;
           HoroscopeProfiles.set_birthDate := UpdateProfile.birthDate input;
           HoroscopeProfiles.set_birthTime := UpdateProfile.birthTime input;
           HoroscopeProfiles.set_birthPlace := UpdateProfile.birthPlace input;
           HoroscopeProfiles.set_zodiacSign := UpdateProfile.zodiacSign input;
           HoroscopeProfiles.set_preferredLanguage :=
             UpdateProfile.preferredLanguage input;
           HoroscopeProfiles.set_notes := UpdateProfile.notes input |} in
      update HoroscopeProfilesT (HoroscopeProfiles.no_values updates)
        (HoroscopeProfiles.apply updates)
        (owned_profile (UpdateProfile.id input) user) ;;;
      ret {| success := true;
             data := {| data_id := UpdateProfile.id input |} |}
  end.

Module DeleteProfile.
Record input : Type := mk
  { id : string }.
End DeleteProfile.

Definition deleteProfile (input : DeleteProfile.input)
  (context : ActionAPIContext) : Action (Response IdData) :=
  user <- requireUser context ;;
  found <- select HoroscopeProfilesT
             (Some (owned_profile (DeleteProfile.id input) user)) (Some 1) ;;
  match nth_error found 0 with
  | None => throw (ActionError NOT_FOUND "Profile not found.")
  | Some _existing =>
      delete HoroscopeProfilesT
        (owned_profile (DeleteProfile.id input) user) ;;;
      ret {| success := true;
             data := {| data_id := DeleteProfile.id input |} |}
  end.

Definition listProfiles (context : ActionAPIContext)
  : Action (Response (ListData HoroscopeProfiles.row)) :=
  user <- requireUser context ;;
  profiles <- select HoroscopeProfilesT
                (Some (eq_text HoroscopeProfiles.userId (user_id user)))
                None ;;
  ret {| success := true;
         data := {| items := profiles; total := List.length profiles |} |}.

Module CreateDailyHoroscope.
Record input : Type := mk
  { horoscopeDate : Date;
    zodiacSign : string;
    language : option string;
    generalText : string;
    loveText : option string;
    careerText : option string;
    healthText : option string;
    luckyNumber : option string;
    luckyColor : option string;
    mood : option string }.
End CreateDailyHoroscope.

Definition createDailyHoroscope (rt : Runtime)
  (input : CreateDailyHoroscope.input) (context : ActionAPIContext)
  : Action (Response OwnedIdData) :=
  user <- requireUser context ;;
  let id := randomUUID rt in
  insert DailyHoroscopesT
    {| DailyHoroscopes.id := id;
       DailyHoroscopes.horoscopeDate :=
         CreateDailyHoroscope.horoscopeDate input;
       DailyHoroscopes.zodiacSign := CreateDailyHoroscope.zodiacSign input;
       DailyHoroscopes.language := CreateDailyHoroscope.language input;
       DailyHoroscopes.generalText := CreateDailyHoroscope.generalText input;
       DailyHoroscopes.loveText := CreateDailyHoroscope.loveText input;
       DailyHoroscopes.careerText := CreateDailyHoroscope.careerText input;
       DailyHoroscopes.healthText := CreateDailyHoroscope.healthText input;
       DailyHoroscopes.luckyNumber := CreateDailyHoroscope.luckyNumber input;
       DailyHoroscopes.luckyColor := CreateDailyHoroscope.luckyColor input;
       DailyHoroscopes.mood := CreateDailyHoroscope.mood input;
       DailyHoroscopes.createdAt := now rt |} ;;;
  ret {| success := true;
         data := {| owned_id := id; ownerId := user_id user |} |}.

Module UpdateDailyHoroscope.
Record input : Type := mk
  { id : string;
    horoscopeDate : option Date;
    zodiacSign : option string;
    language : option string;
    generalText : option string;
    loveText : option string;
    careerText : option string;
    healthText : option string;
    luckyNumber : option string;
    luckyColor : option string;
    mood : option string }.
End UpdateDailyHoroscope.

Definition updateDailyHoroscope (input : UpdateDailyHoroscope.input)
  (context : ActionAPIContext) : Action (Response IdData) :=
  requireUser context ;;;
  found <- select DailyHoroscopesT
             (Some (eq_text DailyHoroscopes.id (UpdateDailyHoroscope.id input)))
             (Some 1) ;;
  match nth_error found 0 with
  | None => throw (ActionError NOT_FOUND "Daily horoscope not found.")
  | Some _existing =>
      (* updates = {}, then one assignment for each input field that is
         not undefined *)
      let updates :=
        {| DailyHoroscopes.set_horoscopeDate :=
             UpdateDailyHoroscope.horoscopeDate input;
           DailyHoroscopes.set_zodiacSign :=
             UpdateDailyHoroscope.zodiacSign input;
           DailyHoroscopes.set_language := UpdateDailyHoroscope.language input;
           DailyHoroscopes.set_generalText :=
             UpdateDailyHoroscope.generalText input;
           DailyHoroscopes.set_loveText := UpdateDailyHoroscope.loveText input;
           DailyHoroscopes.set_careerText :=
             UpdateDailyHoroscope.careerText input;
           DailyHoroscopes.set_healthText :=
             UpdateDailyHoroscope.healthText input;
           DailyHoroscopes.set_luckyNumber :=
             UpdateDailyHoroscope.luckyNumber input;
           DailyHoroscopes.set_luckyColor :=
             UpdateDailyHoroscope.luckyColor input;
           DailyHoroscopes.set_mood := UpdateDailyHoroscope.mood input |} in
      update DailyHoroscopesT (DailyHoroscopes.no_values updates)
        (DailyHoroscopes.apply updates)
        (eq_text DailyHoroscopes.id (UpdateDailyHoroscope.id input)) ;;;
      ret {| success := true;
             data := {| data_id := UpdateDailyHoroscope.id input |} |}
  end.

(** [conditions.length === 1 ? conditions[0] : and(...conditions)] *)
Definition one_or_and {R : Type} (conditions : list (Condition R))
  : Condition R :=
  match conditions with
  | [c] => c
  | _ => and_ conditions
  end.

(** [if (field) conditions.push(eq(column, field))] for a text
    field. *)
Definition push_if_truthy {R : Type} (field : option string)
  (cond : string -> Condition R) (conditions : list (Condition R))
  : list (Condition R) :=
  match field with
  | Some v => if truthy (Some v) then conditions ++ [cond v] else conditions
  | None => conditions
  end.

(** The same for a date field: a [Date] object is always truthy. *)
Definition push_if_defined {R : Type} (field : option Date)
  (cond : Date -> Condition R) (conditions : list (Condition R))
  : list (Condition R) :=
  match field with
  | Some v => conditions ++ [cond v]
  | None => conditions
  end.

Module GetDailyHoroscope.
Record input : Type := mk
  { zodiacSign : string;
    horoscopeDate : option Date;
    language : option string }.
End GetDailyHoroscope.

Definition getDailyHoroscope (rt : Runtime) (input : GetDailyHoroscope.input)
  : Action (Response HoroscopeData) :=
  let targetDate :=
    match GetDailyHoroscope.horoscopeDate input with
    | Some d => d
    | None => now rt
    end in
  let conditions :=
    [eq_text DailyHoroscopes.zodiacSign (GetDailyHoroscope.zodiacSign input);
     eq_date DailyHoroscopes.horoscopeDate targetDate] in
  let conditions :=
    push_if_truthy (GetDailyHoroscope.language input)
      (eq_opt_text DailyHoroscopes.language) conditions in
  found <- select DailyHoroscopesT (Some (one_or_and conditions)) (Some 1) ;;
  match nth_error found 0 with
  | None =>
      throw (ActionError NOT_FOUND
               "No horoscope found for the given sign and date.")
  | Some horoscope =>
      ret {| success := true; data := {| horoscope := horoscope |} |}
  end.

Module ListDailyHoroscopes.
Record input : Type := mk
  { zodiacSign : option string;
    horoscopeDate : option Date;
    language : option string }.
End ListDailyHoroscopes.

Definition listDailyHoroscopes (input : option ListDailyHoroscopes.input)
  : Action (Response (ListData DailyHoroscopes.row)) :=
  let field {A : Type} (f : ListDailyHoroscopes.input -> option A) :=
    match input with
    | Some i => f i
    | None => None
    end in
  let conditions := [] in
  let conditions :=
    push_if_truthy (field ListDailyHoroscopes.zodiacSign)
      (eq_text DailyHoroscopes.zodiacSign) conditions in
  let conditions :=
    push_if_defined (field ListDailyHoroscopes.horoscopeDate)
      (eq_date DailyHoroscopes.horoscopeDate) conditions in
  let conditions :=
    push_if_truthy (field ListDailyHoroscopes.language)
      (eq_opt_text DailyHoroscopes.language) conditions in
  rows <- (if Nat.ltb 0 (List.length conditions)
           then select DailyHoroscopesT (Some (one_or_and conditions)) None
           else select DailyHoroscopesT None None) ;;
  ret {| success := true;
         data := {| items := rows; total := List.length rows |} |}.

Module LogHoroscopeView.
Record input : Type := mk
  { profileId : option string;
    dailyHoroscopeId : option string;
    deviceInfo : option string }.
End LogHoroscopeView.

Definition logHoroscopeView (rt : Runtime) (input : LogHoroscopeView.input)
  (context : ActionAPIContext) : Action (Response IdData) :=
  user <- requireUser context ;;
  match LogHoroscopeView.profileId input with
  | Some profileId =>
      if truthy (Some profileId)
      then
        found <- select HoroscopeProfilesT
                   (Some (owned_profile profileId user)) (Some 1) ;;
        match nth_error found 0 with
        | None =>
            throw (ActionError FORBIDDEN "Profile not found for this user.")
        | Some _profile => ret tt
        end
      else ret tt
  | None => ret tt
  end ;;;
  match LogHoroscopeView.dailyHoroscopeId input with
  | Some dailyHoroscopeId =>
      if truthy (Some dailyHoroscopeId)
      then
        found <- select DailyHoroscopesT
                   (Some (eq_text DailyHoroscopes.id dailyHoroscopeId))
                   (Some 1) ;;
        match nth_error found 0 with
        | None => throw (ActionError NOT_FOUND "Daily horoscope not found.")
        | Some _horoscope => ret tt
        end
      else ret tt
  | None => ret tt
  end ;;;
  let id := randomUUID rt in
  let now := now rt in
  insert HoroscopeViewsT
    {| HoroscopeViews.id := id;
       HoroscopeViews.profileId := LogHoroscopeView.profileId input;
       HoroscopeViews.userId := user_id user;
       HoroscopeViews.dailyHoroscopeId :=
         LogHoroscopeView.dailyHoroscopeId input;
       HoroscopeViews.viewedAt := now;
       HoroscopeViews.deviceInfo := LogHoroscopeView.deviceInfo input;
       HoroscopeViews.createdAt := now |} ;;;
  ret {| success := true; data := {| data_id := id |} |}.

(** [export const server = { ... }]: the action table.  Each entry is called
    with the parsed input and the request context; the two horoscope queries
    declare only the input parameter and never look at the context. *)
Inductive Request : Type :=
| CreateProfileRequest (input : CreateProfile.input)
| UpdateProfileRequest (input : UpdateProfile.input)
| DeleteProfileRequest (input : DeleteProfile.input)
| ListProfilesRequest
| CreateDailyHoroscopeRequest (input : CreateDailyHoroscope.input)
| UpdateDailyHoroscopeRequest (input : UpdateDailyHoroscope.input)
| GetDailyHoroscopeRequest (input : GetDailyHoroscope.input)
| ListDailyHoroscopesRequest (input : option ListDailyHoroscopes.input)
| LogHoroscopeViewRequest (input : LogHoroscopeView.input).

Inductive Reply : Type :=
| IdReply (r : Response IdData)
| OwnedIdReply (r : Response OwnedIdData)
| ProfilesReply (r : Response (ListData HoroscopeProfiles.row))
| HoroscopeReply (r : Response HoroscopeData)
| HoroscopesReply (r : Response (ListData DailyHoroscopes.row)).

Definition reply {A : Type} (wrap : A -> Reply) (m : Action A) : Action Reply :=
  x <- m ;; ret (wrap x).

Definition server (rt : Runtime) (request : Request)
  (context : ActionAPIContext) : Action Reply :=
  match request with
  | CreateProfileRequest input => reply IdReply (createProfile rt input context)
  | UpdateProfileRequest input => reply IdReply (updateProfile rt input context)
  | DeleteProfileRequest input => reply IdReply (deleteProfile input context)
  | ListProfilesRequest => reply ProfilesReply (listProfiles context)
  | CreateDailyHoroscopeRequest input =>
      reply OwnedIdReply (createDailyHoroscope rt input context)
  | UpdateDailyHoroscopeRequest input =>
      reply IdReply (updateDailyHoroscope input context)
  | GetDailyHoroscopeRequest input =>
      reply HoroscopeReply (getDailyHoroscope rt input)
  | ListDailyHoroscopesRequest input =>
      reply HoroscopesReply (listDailyHoroscopes input)
  | LogHoroscopeViewRequest input =>
      reply IdReply (logHoroscopeView rt input context)
  end.




(** ** Sample data and runs *)

Module Sample.

Definition u1 : User := {| user_id := "U1" |}.
Definition u2 : User := {| user_id := "U2" |}.

Definition as_user (u : User) : ActionAPIContext :=
  {| locals := Some {| user := Some u |} |}.

Definition anonymous : ActionAPIContext :=
  {| locals := Some {| user := None |} |}.

Definition no_locals : ActionAPIContext :=
  {| locals := None |}.

Definition rt (t : Date) (uuid : string) : Runtime :=
  {| now := t; randomUUID := uuid |}.

Definition empty : World :=
  {| db := {| profiles := []; horoscopes := []; views := [] |};
     journal := [] |}.

Definition self_aries : CreateProfile.input :=
  {| CreateProfile.name := Some "Self";
     CreateProfile.birthDate := None;
     CreateProfile.birthTime := None;
     CreateProfile.birthPlace := None;
     CreateProfile.zodiacSign := Some "aries";
     CreateProfile.preferredLanguage := None;
     CreateProfile.notes := None |}.

(** The world after U1 created the profile P1 at time 100. *)
Definition with_P1 : World :=
  snd (createProfile (rt 100%Z "P1") self_aries (as_user u1) empty).

(** The row of P1. *)
Definition new_P1 : HoroscopeProfiles.row :=
  {| HoroscopeProfiles.id := "P1";
     HoroscopeProfiles.userId := "U1";
     HoroscopeProfiles.name := Some "Self";
     HoroscopeProfiles.birthDate := None;
     HoroscopeProfiles.birthTime := None;
     HoroscopeProfiles.birthPlace := None;
     HoroscopeProfiles.zodiacSign := Some "aries";
     HoroscopeProfiles.preferredLanguage := None;
     HoroscopeProfiles.notes := None;
     HoroscopeProfiles.createdAt := 100%Z;
     HoroscopeProfiles.updatedAt := 100%Z |}.

Definition aries_2024 (language : option string)
  : CreateDailyHoroscope.input :=
  {| CreateDailyHoroscope.horoscopeDate := 1704067200000%Z;
     CreateDailyHoroscope.zodiacSign := "aries";
     CreateDailyHoroscope.language := language;
     CreateDailyHoroscope.generalText := "...";
     CreateDailyHoroscope.loveText := None;
     CreateDailyHoroscope.careerText := None;
     CreateDailyHoroscope.healthText := None;
     CreateDailyHoroscope.luckyNumber := None;
     CreateDailyHoroscope.luckyColor := None;
     CreateDailyHoroscope.mood := None |}.

(** The world after U1 also published H1 (no language) and H2 (English)
    for aries on 2024-01-01. *)
Definition with_H1_H2 : World :=
  snd (createDailyHoroscope (rt 300%Z "H2") (aries_2024 (Some "en")) (as_user u1)
         (snd (createDailyHoroscope (rt 200%Z "H1") (aries_2024 None)
                 (as_user u1) with_P1))).

Definition rename_only (id name : string) : UpdateProfile.input :=
  {| UpdateProfile.id := id;
     UpdateProfile.name := Some name;
     UpdateProfile.birthDate := None;
     UpdateProfile.birthTime := None;
     UpdateProfile.birthPlace := None;
     UpdateProfile.zodiacSign := None;
     UpdateProfile.preferredLanguage := None;
     UpdateProfile.notes := None |}.

Definition view (profileId dailyHoroscopeId : option string)
  : LogHoroscopeView.input :=
  {| LogHoroscopeView.profileId := profileId;
     LogHoroscopeView.dailyHoroscopeId := dailyHoroscopeId;
     LogHoroscopeView.deviceInfo := None |}.

Definition mood_only (id mood : string) : UpdateDailyHoroscope.input :=
  {| UpdateDailyHoroscope.id := id;
     UpdateDailyHoroscope.horoscopeDate := None;
     UpdateDailyHoroscope.zodiacSign := None;
     UpdateDailyHoroscope.language := None;
     UpdateDailyHoroscope.generalText := None;
     UpdateDailyHoroscope.loveText := None;
     UpdateDailyHoroscope.careerText := None;
     UpdateDailyHoroscope.healthText := None;
     UpdateDailyHoroscope.luckyNumber := None;
     UpdateDailyHoroscope.luckyColor := None;
     UpdateDailyHoroscope.mood := Some mood |}.

(** An update that names a horoscope and supplies nothing. *)
Definition id_only (id : string) : UpdateDailyHoroscope.input :=
  {| UpdateDailyHoroscope.id := id;
     UpdateDailyHoroscope.horoscopeDate := None;
     UpdateDailyHoroscope.zodiacSign := None;
     UpdateDailyHoroscope.language := None;
     UpdateDailyHoroscope.generalText := None;
     UpdateDailyHoroscope.loveText := None;
     UpdateDailyHoroscope.careerText := None;
     UpdateDailyHoroscope.healthText := None;
     UpdateDailyHoroscope.luckyNumber := None;
     UpdateDailyHoroscope.luckyColor := None;
     UpdateDailyHoroscope.mood := None |}.

End Sample.

(** ** Vocabulary of the properties *)

Definition is_owned_profile (id : string) (u : User)
  (r : HoroscopeProfiles.row) : Prop :=
  HoroscopeProfiles.id r = id /\ HoroscopeProfiles.userId r = user_id u.

Definition no_owned_profile (id : string) (u : User) (w : World) : Prop :=
  forall r, In r (profiles (db w)) -> ~ is_owned_profile id u r.


(** What [updateProfile] does to one stored field, from the matching input
    field: a supplied value replaces it, [undefined] keeps it. *)
Definition written {A : Type} (supplied : option A) (prior after : option A)
  : Prop :=
  match supplied with
  | Some v => after = Some v
  | None => after = prior
  end.

(** A required column after an update: the supplied value, or the prior
    one when the input field is [undefined]. *)
Definition overwritten {A : Type} (supplied : option A) (prior after : A)
  : Prop :=
  match supplied with
  | Some v => after = v
  | None => after = prior
  end.

(** The filter of [getDailyHoroscope], row by row: sign and date must be
    equal; the language must be equal only when a non-empty language was
    asked for. *)
Definition horoscope_matches (sign : string) (date : Date)
  (language : option string) (r : DailyHoroscopes.row) : Prop :=
  DailyHoroscopes.zodiacSign r = sign /\
  DailyHoroscopes.horoscopeDate r = date /\
  (forall l, language = Some l -> l <> "" ->
             DailyHoroscopes.language r = Some l).

Definition get_condition (sign : string) (date : Date)
  (language : option string) : Condition DailyHoroscopes.row :=
  one_or_and
    (push_if_truthy language (eq_opt_text DailyHoroscopes.language)
       [eq_text DailyHoroscopes.zodiacSign sign;
        eq_date DailyHoroscopes.horoscopeDate date]).

Definition target_date (rt : Runtime) (horoscopeDate : option Date) : Date :=
  match horoscopeDate with
  | Some d => d
  | None => now rt
  end.

(** The two read-only horoscope queries. *)
Definition public_query (request : Request) : bool :=
  match request with
  | GetDailyHoroscopeRequest _ | ListDailyHoroscopesRequest _ => true
  | _ => false
  end.

Definition unauthorized : Failure :=
  ActionError UNAUTHORIZED "You must be signed in to perform this action.".

Definition unique_keys (d : Database) : Prop :=
  NoDup (map HoroscopeProfiles.id (profiles d)) /\
  NoDup (map DailyHoroscopes.id (horoscopes d)) /\
  NoDup (map HoroscopeViews.id (views d)).

Definition preserves (I : Database -> Prop) {A : Type} (m : Action A) : Prop :=
  forall w, I (db w) -> I (db (snd (m w))).

Definition new_profile (rt : Runtime) (input : CreateProfile.input) (u : User)
  : HoroscopeProfiles.row :=
  {| HoroscopeProfiles.id := randomUUID rt;
     HoroscopeProfiles.userId := user_id u;
     HoroscopeProfiles.name := CreateProfile.name input;
     HoroscopeProfiles.birthDate := CreateProfile.birthDate input;
     HoroscopeProfiles.birthTime := CreateProfile.birthTime input;
     HoroscopeProfiles.birthPlace := CreateProfile.birthPlace input;
     HoroscopeProfiles.zodiacSign := CreateProfile.zodiacSign input;
     HoroscopeProfiles.preferredLanguage :=
       CreateProfile.preferredLanguage input;
     HoroscopeProfiles.notes := CreateProfile.notes input;
     HoroscopeProfiles.createdAt := now rt;
     HoroscopeProfiles.updatedAt := now rt |}.

(** The identifiers [listProfiles] shows to a caller in a given world
    (nothing when the call fails). *)
Definition listed_ids (context : ActionAPIContext) (w : World) : list string :=
  match fst (listProfiles context w) with
  | inr r => map HoroscopeProfiles.id (items (data r))
  | inl _ => []
  end.

Definition horoscope_updates (input : UpdateDailyHoroscope.input)
  : DailyHoroscopes.updates :=
  {| DailyHoroscopes.set_horoscopeDate :=
       UpdateDailyHoroscope.horoscopeDate input;
     DailyHoroscopes.set_zodiacSign := UpdateDailyHoroscope.zodiacSign input;
     DailyHoroscopes.set_language := UpdateDailyHoroscope.language input;
     DailyHoroscopes.set_generalText :=
       UpdateDailyHoroscope.generalText input;
     DailyHoroscopes.set_loveText := UpdateDailyHoroscope.loveText input;
     DailyHoroscopes.set_careerText := UpdateDailyHoroscope.careerText input;
     DailyHoroscopes.set_healthText := UpdateDailyHoroscope.healthText input;
     DailyHoroscopes.set_luckyNumber :=
       UpdateDailyHoroscope.luckyNumber input;
     DailyHoroscopes.set_luckyColor := UpdateDailyHoroscope.luckyColor input;
     DailyHoroscopes.set_mood := UpdateDailyHoroscope.mood input |}.

(** The input of [updateDailyHoroscope] supplies at least one field besides
    the identifier. *)
Definition supplies_a_field (input : UpdateDailyHoroscope.input) : Prop :=
  UpdateDailyHoroscope.horoscopeDate input <> None \/
  UpdateDailyHoroscope.zodiacSign input <> None \/
  UpdateDailyHoroscope.language input <> None \/
  UpdateDailyHoroscope.generalText input <> None \/
  UpdateDailyHoroscope.loveText input <> None \/
  UpdateDailyHoroscope.careerText input <> None \/
  UpdateDailyHoroscope.healthText input <> None \/
  UpdateDailyHoroscope.luckyNumber input <> None \/
  UpdateDailyHoroscope.luckyColor input <> None \/
  UpdateDailyHoroscope.mood input <> None.

Definition new_horoscope (rt : Runtime) (input : CreateDailyHoroscope.input)
  : DailyHoroscopes.row :=
  {| DailyHoroscopes.id := randomUUID rt;
     DailyHoroscopes.horoscopeDate := CreateDailyHoroscope.horoscopeDate input;
     DailyHoroscopes.zodiacSign := CreateDailyHoroscope.zodiacSign input;
     DailyHoroscopes.language := CreateDailyHoroscope.language input;
     DailyHoroscopes.generalText := CreateDailyHoroscope.generalText input;
     DailyHoroscopes.loveText := CreateDailyHoroscope.loveText input;
     DailyHoroscopes.careerText := CreateDailyHoroscope.careerText input;
     DailyHoroscopes.healthText := CreateDailyHoroscope.healthText input;
     DailyHoroscopes.luckyNumber := CreateDailyHoroscope.luckyNumber input;
     DailyHoroscopes.luckyColor := CreateDailyHoroscope.luckyColor input;
     DailyHoroscopes.mood := CreateDailyHoroscope.mood input;
     DailyHoroscopes.createdAt := now rt |}.

(** ** Vocabulary of the further properties *)

(** Every run of [m] takes the tables from [d] to some [d'] with
    [Rel d d']. *)
Definition relates (Rel : Database -> Database -> Prop) {A : Type}
  (m : Action A) : Prop :=
  forall w, Rel (db w) (db (snd (m w))).

(** A run of [m] that throws has written nothing. *)
Definition atomic {A : Type} (m : Action A) : Prop :=
  forall w e, fst (m w) = inl e -> db (snd (m w)) = db w.

(** The profile rows that belong to somebody other than [u]. *)
Definition foreign_profiles (u : User) (d : Database)
  : list HoroscopeProfiles.row :=
  filter (fun r => negb (HoroscopeProfiles.userId r =? user_id u))
    (profiles d).

(** Identifier and creation time of every horoscope row, in table order. *)
Definition horoscope_stamps (d : Database) : list (string * Date) :=
  map (fun r => (DailyHoroscopes.id r, DailyHoroscopes.createdAt r))
    (horoscopes d).

(** The filter of [listDailyHoroscopes], row by row. *)
Definition list_matches (input : option ListDailyHoroscopes.input)
  (r : DailyHoroscopes.row) : Prop :=
  match input with
  | None => True
  | Some i =>
      (forall s, ListDailyHoroscopes.zodiacSign i = Some s -> s <> "" ->
                 DailyHoroscopes.zodiacSign r = s) /\
      (forall d, ListDailyHoroscopes.horoscopeDate i = Some d ->
                 DailyHoroscopes.horoscopeDate r = d) /\
      (forall l, ListDailyHoroscopes.language i = Some l -> l <> "" ->
                 DailyHoroscopes.language r = Some l)
  end.

(** A reference of a view is in order when it is absent or empty (then it
    is not checked) or names a row the check accepts. *)
Definition profile_reference_ok (profileId : option string) (u : User)
  (d : Database) : Prop :=
  forall pid, profileId = Some pid -> pid <> "" ->
    exists r, In r (profiles d) /\ is_owned_profile pid u r.

Definition horoscope_reference_ok (dailyHoroscopeId : option string)
  (d : Database) : Prop :=
  forall hid, dailyHoroscopeId = Some hid -> hid <> "" ->
    exists r, In r (horoscopes d) /\ DailyHoroscopes.id r = hid.

Definition new_view (rt : Runtime) (input : LogHoroscopeView.input) (u : User)
  : HoroscopeViews.row :=
  {| HoroscopeViews.id := randomUUID rt;
     HoroscopeViews.profileId := LogHoroscopeView.profileId input;
     HoroscopeViews.userId := user_id u;
     HoroscopeViews.dailyHoroscopeId :=
       LogHoroscopeView.dailyHoroscopeId input;
     HoroscopeViews.viewedAt := now rt;
     HoroscopeViews.deviceInfo := LogHoroscopeView.deviceInfo input;
     HoroscopeViews.createdAt := now rt |}.



(** Every reference of every view row names an existing row (or is NULL):
    the state a database that enforces the foreign keys of [db/tables.ts]
    is always in. *)
Definition foreign_keys_hold (d : Database) : Prop :=
  forall v, In v (views d) -> references_exist HoroscopeViewsT v d = true.

(** Some view row refers to the profile [id]. *)
Definition profile_is_viewed (id : string) (d : Database) : Prop :=
  exists v, In v (views d) /\ HoroscopeViews.profileId v = Some id.

(** What the foreign keys demand of the references of a new view row: each
    one that is given, empty or not, is the identifier of a stored row. *)
Definition references_stored (input : LogHoroscopeView.input) (d : Database)
  : Prop :=
  (forall pid, LogHoroscopeView.profileId input = Some pid ->
     exists r, In r (profiles d) /\ HoroscopeProfiles.id r = pid) /\
  (forall hid, LogHoroscopeView.dailyHoroscopeId input = Some hid ->
     exists r, In r (horoscopes d) /\ DailyHoroscopes.id r = hid).

(** ** Basic facts about the store operations *)

Unset Implicit Arguments.

Lemma first_match {R : Type} (c : Condition R) (l : list R) :
  nth_error (firstn 1 (filter c l)) 0 = find c l.
Proof.
  induction l as [|r l IH]; simpl; [reflexivity|].
  destruct (c r); simpl; [reflexivity | exact IH].
Qed.

Lemma find_absent {R : Type} (c : Condition R) (l : list R) :
  (forall r, In r l -> c r = false) -> find c l = None.
Proof.
  induction l as [|r l IH]; simpl; intros H; [reflexivity|].
  rewrite (H r (or_introl eq_refl)). apply IH. intros x Hx. apply H. now right.
Qed.

Lemma find_present {R : Type} (c : Condition R) (l : list R) (r : R) :
  In r l -> c r = true -> exists r', find c l = Some r'.
Proof.
  induction l as [|x l IH]; simpl; intros Hin Hc; [contradiction|].
  destruct (c x) eqn:Hx; [now exists x|].
  destruct Hin as [->|Hin]; [congruence | now apply IH].
Qed.

Lemma find_first {R : Type} (c : Condition R) (l1 l2 : list R) (r : R) :
  (forall x, In x l1 -> c x = false) -> c r = true ->
  find c (l1 ++ r :: l2) = Some r.
Proof.
  induction l1 as [|x l1 IH]; simpl; intros Hno Hc.
  - now rewrite Hc.
  - rewrite (Hno x (or_introl eq_refl)). apply IH; [|exact Hc].
    intros y Hy. apply Hno. now right.
Qed.

Lemma select_first {R : Type} (T : TableSpec R) (c : Condition R) (w : World) :
  select T (Some c) (Some 1) w
  = (inr (firstn 1 (filter c (rows T (db w)))), record (Select (table T)) w).
Proof. reflexivity. Qed.

Lemma requireUser_signed_in (context : ActionAPIContext) (u : User) (w : World) :
  context_user context = Some u -> requireUser context w = (inr u, w).
Proof. intros H. unfold requireUser. now rewrite H. Qed.

Lemma requireUser_anonymous (context : ActionAPIContext) (w : World) :
  context_user context = None ->
  requireUser context w
  = (inl (ActionError UNAUTHORIZED
            "You must be signed in to perform this action."), w).
Proof. intros H. unfold requireUser. now rewrite H. Qed.

(** ** Profiles: the owner-scoped lookup *)

Lemma owned_profile_true (id : string) (u : User) (r : HoroscopeProfiles.row) :
  owned_profile id u r = true <-> is_owned_profile id u r.
Proof.
  unfold owned_profile, and_, eq_text, is_owned_profile. simpl.
  rewrite andb_true_r, andb_true_iff, !String.eqb_eq. tauto.
Qed.

Lemma owned_profile_false (id : string) (u : User) (r : HoroscopeProfiles.row) :
  owned_profile id u r = false <-> ~ is_owned_profile id u r.
Proof.
  rewrite <- owned_profile_true. destruct (owned_profile id u r); split;
    congruence.
Qed.

Lemma owned_lookup_none (id : string) (u : User) (w : World) :
  no_owned_profile id u w ->
  find (owned_profile id u) (profiles (db w)) = None.
Proof.
  intros H. apply find_absent. intros r Hr.
  apply owned_profile_false. now apply H.
Qed.

Lemma updateProfile_not_found (rt : Runtime) (input : UpdateProfile.input)
  (context : ActionAPIContext) (u : User) (w : World) :
  context_user context = Some u ->
  no_owned_profile (UpdateProfile.id input) u w ->
  updateProfile rt input context w
  = (inl (ActionError NOT_FOUND "Profile not found."),
     record (Select T_HoroscopeProfiles) w).
Proof.
  intros Hu Hno. unfold updateProfile, bind.
  rewrite (requireUser_signed_in _ _ _ Hu), select_first, first_match.
  change (rows HoroscopeProfilesT (db w)) with (profiles (db w)).
  now rewrite (owned_lookup_none _ _ _ Hno).
Qed.

Lemma deleteProfile_not_found (input : DeleteProfile.input)
  (context : ActionAPIContext) (u : User) (w : World) :
  context_user context = Some u ->
  no_owned_profile (DeleteProfile.id input) u w ->
  deleteProfile input context w
  = (inl (ActionError NOT_FOUND "Profile not found."),
     record (Select T_HoroscopeProfiles) w).
Proof.
  intros Hu Hno. unfold deleteProfile, bind.
  rewrite (requireUser_signed_in _ _ _ Hu), select_first, first_match.
  change (rows HoroscopeProfilesT (db w)) with (profiles (db w)).
  now rewrite (owned_lookup_none _ _ _ Hno).
Qed.

(** C1.  A signed-in caller who owns no profile row with the given
    identifier gets NOT_FOUND from [updateProfile] and from [deleteProfile],
    and the tables are left as they were.  The thrown failure is the same
    value whether the profile does not exist at all (world [absent]) or
    exists under another user (world [foreign]), so the two cases cannot be
    told apart. *)
Theorem profile_update_delete_not_owned_is_not_found :
  forall (rt : Runtime) (context : ActionAPIContext) (u : User)
         (upd : UpdateProfile.input) (del : DeleteProfile.input)
         (absent foreign : World),
    context_user context = Some u ->
    (* truly absent: no row carries the identifier *)
    (forall r, In r (profiles (db absent)) ->
               HoroscopeProfiles.id r <> UpdateProfile.id upd /\
               HoroscopeProfiles.id r <> DeleteProfile.id del) ->
    (* possibly present, but never with the caller as owner *)
    no_owned_profile (UpdateProfile.id upd) u foreign ->
    no_owned_profile (DeleteProfile.id del) u foreign ->
    let not_found := inl (ActionError NOT_FOUND "Profile not found.") in
    fst (updateProfile rt upd context foreign) = not_found /\
    fst (deleteProfile del context foreign) = not_found /\
    fst (updateProfile rt upd context absent)
      = fst (updateProfile rt upd context foreign) /\
    fst (deleteProfile del context absent)
      = fst (deleteProfile del context foreign) /\
    db (snd (updateProfile rt upd context foreign)) = db foreign /\
    db (snd (deleteProfile del context foreign)) = db foreign.
Proof.
  intros rt context u upd del absent foreign Hu Habs Hupd Hdel not_found.
  assert (Ha1 : no_owned_profile (UpdateProfile.id upd) u absent).
  { intros r Hr [Hid _]. now destruct (Habs r Hr). }
  assert (Ha2 : no_owned_profile (DeleteProfile.id del) u absent).
  { intros r Hr [Hid _]. now destruct (Habs r Hr). }
  rewrite !(updateProfile_not_found rt upd context u foreign Hu Hupd).
  rewrite !(deleteProfile_not_found del context u foreign Hu Hdel).
  rewrite (updateProfile_not_found rt upd context u absent Hu Ha1).
  rewrite (deleteProfile_not_found del context u absent Hu Ha2).
  simpl. repeat split; reflexivity.
Qed.

Lemma profile_update_delete_not_owned_is_not_found_witness :
  let upd := Sample.rename_only "P1" "Mine" in
  let del := {| DeleteProfile.id := "P1" |} in
  let ctx := Sample.as_user Sample.u2 in
  fst (updateProfile (Sample.rt 7%Z "x") upd ctx Sample.with_P1)
    = inl (ActionError NOT_FOUND "Profile not found.") /\
  fst (deleteProfile del ctx Sample.with_P1)
    = inl (ActionError NOT_FOUND "Profile not found.") /\
  fst (updateProfile (Sample.rt 7%Z "x") upd ctx Sample.empty)
    = fst (updateProfile (Sample.rt 7%Z "x") upd ctx Sample.with_P1) /\
  fst (deleteProfile del ctx Sample.empty)
    = fst (deleteProfile del ctx Sample.with_P1) /\
  db (snd (updateProfile (Sample.rt 7%Z "x") upd ctx Sample.with_P1))
    = db Sample.with_P1 /\
  db (snd (deleteProfile del ctx Sample.with_P1)) = db Sample.with_P1.
Proof.
  intros upd del ctx.
  apply (profile_update_delete_not_owned_is_not_found
           (Sample.rt 7%Z "x") ctx Sample.u2 upd del
           Sample.empty Sample.with_P1).
  - reflexivity.
  - simpl. intros r [].
  - intros r Hr [_ Ho]. simpl in Hr. destruct Hr as [<-|[]]. discriminate Ho.
  - intros r Hr [_ Ho]. simpl in Hr. destruct Hr as [<-|[]]. discriminate Ho.
Defined.

(** ** Profiles: partial update *)

Lemma assign_written {A : Type} (supplied prior : option A) :
  written supplied prior (HoroscopeProfiles.assign supplied prior).
Proof. destruct supplied; reflexivity. Qed.

Lemma updateProfile_found (rt : Runtime) (input : UpdateProfile.input)
  (context : ActionAPIContext) (u : User) (w : World) :
  context_user context = Some u ->
  (exists r, In r (profiles (db w)) /\
             is_owned_profile (UpdateProfile.id input) u r) ->
  updateProfile rt input context w
  = (inr {| success := true;
            data := {| data_id := UpdateProfile.id input |} |},
     {| db :=
          {| profiles :=
               map (fun r =>
                      if owned_profile (UpdateProfile.id input) u r
                      then
                        {| HoroscopeProfiles.id := HoroscopeProfiles.id r;
                           HoroscopeProfiles.userId :=
                             HoroscopeProfiles.userId r;
                           HoroscopeProfiles.name :=
                             HoroscopeProfiles.assign
                               (UpdateProfile.name input)
                               (HoroscopeProfiles.name r);
                           HoroscopeProfiles.birthDate :=
                             HoroscopeProfiles.assign
                               (UpdateProfile.birthDate input)
                               (HoroscopeProfiles.birthDate r);
                           HoroscopeProfiles.birthTime :=
                             HoroscopeProfiles.assign
                               (UpdateProfile.birthTime input)
                               (HoroscopeProfiles.birthTime r);
                           HoroscopeProfiles.birthPlace :=
                             HoroscopeProfiles.assign
                               (UpdateProfile.birthPlace input)
                               (HoroscopeProfiles.birthPlace r);
                           HoroscopeProfiles.zodiacSign :=
                             HoroscopeProfiles.assign
                               (UpdateProfile.zodiacSign input)
                               (HoroscopeProfiles.zodiacSign r);
                           HoroscopeProfiles.preferredLanguage :=
                             HoroscopeProfiles.assign
                               (UpdateProfile.preferredLanguage input)
                               (HoroscopeProfiles.preferredLanguage r);
                           HoroscopeProfiles.notes :=
                             HoroscopeProfiles.assign
                               (UpdateProfile.notes input)
                               (HoroscopeProfiles.notes r);
                           HoroscopeProfiles.createdAt :=
                             HoroscopeProfiles.createdAt r;
                           HoroscopeProfiles.updatedAt := now rt |}
                      else r)
                 (profiles (db w));
             horoscopes := horoscopes (db w);
             views := views (db w) |};
        journal := journal w ++ [Select T_HoroscopeProfiles]
                     ++ [Update T_HoroscopeProfiles] |}).
Proof.
  intros Hu (r & Hin & Hown). unfold updateProfile, bind.
  rewrite (requireUser_signed_in _ _ _ Hu), select_first, first_match.
  change (rows HoroscopeProfilesT (db w)) with (profiles (db w)).
  apply owned_profile_true in Hown.
  destruct (find_present _ _ _ Hin Hown) as (r0 & ->).
  unfold update, ret, record. simpl. now rewrite <- app_assoc.
Qed.

(** C2.  When the caller owns a profile with the given identifier,
    [updateProfile] succeeds and rewrites the profile table row by row, in
    place: a row that is not the caller's profile with that identifier is
    untouched; in the caller's profile every supplied field holds the
    supplied value, every field whose input is [undefined] holds its prior
    value (it is not nulled), [updatedAt] is the current time, and [id],
    [userId] and [createdAt] are as before.  The other two tables are not
    changed. *)
Theorem updateProfile_writes_exactly_supplied_fields :
  forall (rt : Runtime) (input : UpdateProfile.input)
         (context : ActionAPIContext) (u : User) (w : World),
    context_user context = Some u ->
    (exists r, In r (profiles (db w)) /\
               is_owned_profile (UpdateProfile.id input) u r) ->
    exists w',
      updateProfile rt input context w
      = (inr {| success := true;
                data := {| data_id := UpdateProfile.id input |} |}, w') /\
      horoscopes (db w') = horoscopes (db w) /\
      views (db w') = views (db w) /\
      List.length (profiles (db w')) = List.length (profiles (db w)) /\
      forall (i : nat) (r : HoroscopeProfiles.row),
        nth_error (profiles (db w)) i = Some r ->
        exists r',
          nth_error (profiles (db w')) i = Some r' /\
          HoroscopeProfiles.id r' = HoroscopeProfiles.id r /\
          HoroscopeProfiles.userId r' = HoroscopeProfiles.userId r /\
          HoroscopeProfiles.createdAt r' = HoroscopeProfiles.createdAt r /\
          (~ is_owned_profile (UpdateProfile.id input) u r -> r' = r) /\
          (is_owned_profile (UpdateProfile.id input) u r ->
           written (UpdateProfile.name input)
             (HoroscopeProfiles.name r) (HoroscopeProfiles.name r') /\
           written (UpdateProfile.birthDate input)
             (HoroscopeProfiles.birthDate r) (HoroscopeProfiles.birthDate r') /\
           written (UpdateProfile.birthTime input)
             (HoroscopeProfiles.birthTime r) (HoroscopeProfiles.birthTime r') /\
           written (UpdateProfile.birthPlace input)
             (HoroscopeProfiles.birthPlace r)
             (HoroscopeProfiles.birthPlace r') /\
           written (UpdateProfile.zodiacSign input)
             (HoroscopeProfiles.zodiacSign r)
             (HoroscopeProfiles.zodiacSign r') /\
           written (UpdateProfile.preferredLanguage input)
             (HoroscopeProfiles.preferredLanguage r)
             (HoroscopeProfiles.preferredLanguage r') /\
           written (UpdateProfile.notes input)
             (HoroscopeProfiles.notes r) (HoroscopeProfiles.notes r') /\
           HoroscopeProfiles.updatedAt r' = now rt).
Proof.
  intros rt input context u w Hu Hex.
  eexists. split; [exact (updateProfile_found rt input context u w Hu Hex)|].
  cbn [db snd profiles horoscopes views].
  split; [reflexivity|]. split; [reflexivity|].
  split; [apply length_map|].
  intros i r Hi. rewrite nth_error_map, Hi. simpl option_map.
  eexists. split; [reflexivity|].
  destruct (owned_profile (UpdateProfile.id input) u r) eqn:Hc.
  - apply owned_profile_true in Hc. cbn.
    do 3 (split; [reflexivity|]).
    split; [intros Hn; contradiction|]. intros _.
    repeat (split; [apply assign_written|]). reflexivity.
  - apply owned_profile_false in Hc.
    do 3 (split; [reflexivity|]).
    split; [reflexivity|]. intros Ho. contradiction.
Qed.

Lemma updateProfile_writes_exactly_supplied_fields_witness :
  exists w',
    updateProfile (Sample.rt 500%Z "x") (Sample.rename_only "P1" "Me")
      (Sample.as_user Sample.u1) Sample.with_P1
    = (inr {| success := true; data := {| data_id := "P1" |} |}, w') /\
    map HoroscopeProfiles.name (profiles (db w')) = [Some "Me"] /\
    map HoroscopeProfiles.zodiacSign (profiles (db w')) = [Some "aries"] /\
    map HoroscopeProfiles.updatedAt (profiles (db w')) = [500%Z].
Proof.
  destruct (updateProfile_writes_exactly_supplied_fields
              (Sample.rt 500%Z "x") (Sample.rename_only "P1" "Me")
              (Sample.as_user Sample.u1) Sample.u1 Sample.with_P1 eq_refl)
    as (w' & Hrun & _).
  - eexists. split; [left; reflexivity | split; reflexivity].
  - exists w'. split; [exact Hrun|].
    vm_compute in Hrun. injection Hrun as <-. repeat split.
Defined.

(** ** Daily horoscopes: lookup by sign, date and language *)

Lemma eq_opt_text_true {R : Type} (col : R -> option string) (v : string)
  (r : R) :
  eq_opt_text col v r = true <-> col r = Some v.
Proof.
  unfold eq_opt_text. destruct (col r) as [x|].
  - rewrite String.eqb_eq. split; congruence.
  - split; discriminate.
Qed.

Lemma get_condition_true (sign : string) (date : Date)
  (language : option string) (r : DailyHoroscopes.row) :
  get_condition sign date language r = true
  <-> horoscope_matches sign date language r.
Proof.
  unfold get_condition, horoscope_matches, push_if_truthy, truthy.
  destruct language as [l|].
  - destruct (String.eqb_spec l "") as [->|Hne]; simpl.
    + unfold eq_text, eq_date.
      rewrite andb_true_r, andb_true_iff, String.eqb_eq, Z.eqb_eq.
      split; [intros [H1 H2] | intros (H1 & H2 & _)]; repeat split; auto.
      intros l [= <-] Hl. now elim Hl.
    + unfold eq_text, eq_date.
      rewrite andb_true_r, !andb_true_iff, String.eqb_eq, Z.eqb_eq,
        eq_opt_text_true.
      split; [intros (H1 & H2 & H3) | intros (H1 & H2 & H3)];
        repeat split; auto.
      intros l' [= <-] _. exact H3.
  - simpl. unfold eq_text, eq_date.
    rewrite andb_true_r, andb_true_iff, String.eqb_eq, Z.eqb_eq.
    split; [intros [H1 H2] | intros (H1 & H2 & _)]; repeat split; auto.
    intros l [=].
Qed.

Lemma get_condition_false (sign : string) (date : Date)
  (language : option string) (r : DailyHoroscopes.row) :
  get_condition sign date language r = false
  <-> ~ horoscope_matches sign date language r.
Proof.
  rewrite <- get_condition_true.
  destruct (get_condition sign date language r); split; congruence.
Qed.

Lemma getDailyHoroscope_run (rt : Runtime) (input : GetDailyHoroscope.input)
  (w : World) :
  getDailyHoroscope rt input w
  = (match find (get_condition (GetDailyHoroscope.zodiacSign input)
                   (target_date rt (GetDailyHoroscope.horoscopeDate input))
                   (GetDailyHoroscope.language input))
             (horoscopes (db w)) with
     | Some h => inr {| success := true; data := {| horoscope := h |} |}
     | None => inl (ActionError NOT_FOUND
                      "No horoscope found for the given sign and date.")
     end,
     record (Select T_DailyHoroscopes) w).
Proof.
  unfold getDailyHoroscope, bind. rewrite select_first, first_match.
  change (rows DailyHoroscopesT (db w)) with (horoscopes (db w)).
  unfold get_condition, target_date.
  destruct (find _ (horoscopes (db w))); reflexivity.
Qed.

(** C3.  [getDailyHoroscope] with [horoscopeDate] omitted behaves as with
    [horoscopeDate] set to the current [Date]; it throws NOT_FOUND exactly
    when no row passes the sign/date(/language) equality filter; when rows
    pass, the answer is the first of them in table order; the tables are
    only read. *)
Theorem getDailyHoroscope_default_date_first_match :
  forall (rt : Runtime) (sign : string) (date : option Date)
         (language : option string) (w : World),
    let input :=
      {| GetDailyHoroscope.zodiacSign := sign;
         GetDailyHoroscope.horoscopeDate := date;
         GetDailyHoroscope.language := language |} in
    let matches := horoscope_matches sign (target_date rt date) language in
    getDailyHoroscope rt
      {| GetDailyHoroscope.zodiacSign := sign;
         GetDailyHoroscope.horoscopeDate := None;
         GetDailyHoroscope.language := language |} w
    = getDailyHoroscope rt
        {| GetDailyHoroscope.zodiacSign := sign;
           GetDailyHoroscope.horoscopeDate := Some (now rt);
           GetDailyHoroscope.language := language |} w /\
    (fst (getDailyHoroscope rt input w)
     = inl (ActionError NOT_FOUND
              "No horoscope found for the given sign and date.")
     <-> forall r, In r (horoscopes (db w)) -> ~ matches r) /\
    (forall before r after,
        horoscopes (db w) = before ++ r :: after ->
        (forall x, In x before -> ~ matches x) ->
        matches r ->
        fst (getDailyHoroscope rt input w)
        = inr {| success := true; data := {| horoscope := r |} |}) /\
    db (snd (getDailyHoroscope rt input w)) = db w.
Proof.
  intros rt sign date language w input matches.
  split; [now rewrite !getDailyHoroscope_run|].
  rewrite getDailyHoroscope_run. cbn [fst snd db record].
  subst input matches. cbn [GetDailyHoroscope.zodiacSign
    GetDailyHoroscope.horoscopeDate GetDailyHoroscope.language].
  set (c := get_condition sign (target_date rt date) language).
  split; [|split; [|reflexivity]].
  - split.
    + intros Hnf r Hr. apply get_condition_false. fold c.
      destruct (find c (horoscopes (db w))) eqn:Hf; [discriminate|].
      exact (find_none c _ Hf r Hr).
    + intros Hno. rewrite find_absent; [reflexivity|].
      intros r Hr. apply get_condition_false. now apply Hno.
  - intros before r after -> Hbefore Hr.
    rewrite find_first; [reflexivity | | now apply get_condition_true].
    intros x Hx. apply get_condition_false. now apply Hbefore.
Qed.

Lemma getDailyHoroscope_default_date_first_match_witness :
  exists h1 h2,
    horoscopes (db Sample.with_H1_H2) = [h1; h2] /\
    DailyHoroscopes.id h2 = "H2" /\
    fst (getDailyHoroscope (Sample.rt 1704067200000%Z "x")
           {| GetDailyHoroscope.zodiacSign := "aries";
              GetDailyHoroscope.horoscopeDate := None;
              GetDailyHoroscope.language := Some "en" |} Sample.with_H1_H2)
    = inr {| success := true; data := {| horoscope := h2 |} |}.
Proof.
  do 2 eexists. split; [reflexivity|]. split; [reflexivity|].
  destruct (getDailyHoroscope_default_date_first_match
              (Sample.rt 1704067200000%Z "x") "aries" None (Some "en")
              Sample.with_H1_H2) as (_ & _ & Hfirst & _).
  apply Hfirst
    with (before := firstn 1 (horoscopes (db Sample.with_H1_H2)))
         (after := []).
  - reflexivity.
  - intros x [<-|[]] (_ & _ & Hl). specialize (Hl "en" eq_refl).
    assert (Hne : "en" <> "") by discriminate.
    specialize (Hl Hne). discriminate Hl.
  - repeat split. intros l [= <-] _. reflexivity.
Defined.

(** ** Daily horoscopes: empty-string filters *)

(** C10.  An empty-string [language] in [getDailyHoroscope], and an
    empty-string [zodiacSign] or [language] in [listDailyHoroscopes], give
    the same outcome (response and world) as the same call with that field
    omitted: the equality condition is pushed only for a truthy value. *)
Theorem empty_string_filter_same_as_omitted :
  forall (rt : Runtime) (w : World),
    (forall (sign : string) (date : option Date),
        getDailyHoroscope rt
          {| GetDailyHoroscope.zodiacSign := sign;
             GetDailyHoroscope.horoscopeDate := date;
             GetDailyHoroscope.language := Some "" |} w
        = getDailyHoroscope rt
            {| GetDailyHoroscope.zodiacSign := sign;
               GetDailyHoroscope.horoscopeDate := date;
               GetDailyHoroscope.language := None |} w) /\
    (forall (date : option Date) (language : option string),
        listDailyHoroscopes
          (Some {| ListDailyHoroscopes.zodiacSign := Some "";
                   ListDailyHoroscopes.horoscopeDate := date;
                   ListDailyHoroscopes.language := language |}) w
        = listDailyHoroscopes
            (Some {| ListDailyHoroscopes.zodiacSign := None;
                     ListDailyHoroscopes.horoscopeDate := date;
                     ListDailyHoroscopes.language := language |}) w) /\
    (forall (sign : option string) (date : option Date),
        listDailyHoroscopes
          (Some {| ListDailyHoroscopes.zodiacSign := sign;
                   ListDailyHoroscopes.horoscopeDate := date;
                   ListDailyHoroscopes.language := Some "" |}) w
        = listDailyHoroscopes
            (Some {| ListDailyHoroscopes.zodiacSign := sign;
                     ListDailyHoroscopes.horoscopeDate := date;
                     ListDailyHoroscopes.language := None |}) w).
Proof.
  intros rt w. split; [|split].
  - intros sign date. reflexivity.
  - intros date language. reflexivity.
  - intros sign date. unfold listDailyHoroscopes.
    cbn [ListDailyHoroscopes.language push_if_truthy truthy String.eqb negb].
    reflexivity.
Qed.

(** The truthy test really is what decides: a non-empty language narrows
    the answer, the empty one does not. *)
Example empty_language_does_not_narrow :
  let ask language :=
    match fst (getDailyHoroscope (Sample.rt 1704067200000%Z "x")
                 {| GetDailyHoroscope.zodiacSign := "aries";
                    GetDailyHoroscope.horoscopeDate := None;
                    GetDailyHoroscope.language := language |}
                 Sample.with_H1_H2) with
    | inr r => Some (DailyHoroscopes.id (horoscope (data r)))
    | inl _ => None
    end in
  ask (Some "en") = Some "H2" /\ ask (Some "") = Some "H1" /\
  ask None = Some "H1" /\ ask (Some "fr") = None.
Proof. repeat split. Qed.

(** ** Authentication *)

Lemma reply_after_requireUser_anonymous {A : Type} (wrap : A -> Reply)
  (context : ActionAPIContext) (k : User -> Action A) (w : World) :
  context_user context = None ->
  reply wrap (u <- requireUser context ;; k u) w = (inl unauthorized, w).
Proof.
  intros H. unfold reply, bind. now rewrite (requireUser_anonymous _ _ H).
Qed.

(** C5.  Every action other than [getDailyHoroscope] and
    [listDailyHoroscopes], called without an authenticated identity, throws
    UNAUTHORIZED and leaves the world exactly as it was: no table changed
    and no statement, not even a read, was sent to the database.  The two
    horoscope queries give the same outcome whatever the context holds. *)
Theorem unauthenticated_calls_stop_before_the_store :
  (forall (rt : Runtime) (request : Request) (context : ActionAPIContext)
          (w : World),
      public_query request = false ->
      context_user context = None ->
      server rt request context w = (inl unauthorized, w)) /\
  (forall (rt : Runtime) (request : Request)
          (context context' : ActionAPIContext) (w : World),
      public_query request = true ->
      server rt request context w = server rt request context' w).
Proof.
  split.
  - intros rt request context w Hq Hu.
    destruct request; try discriminate Hq; cbn [server];
      now apply reply_after_requireUser_anonymous.
  - intros rt request context context' w Hq.
    destruct request; try discriminate Hq; reflexivity.
Qed.

Lemma unauthenticated_calls_stop_before_the_store_witness :
  server (Sample.rt 5%Z "V1")
    (LogHoroscopeViewRequest (Sample.view None None))
    Sample.no_locals Sample.with_P1
  = (inl unauthorized, Sample.with_P1) /\
  server (Sample.rt 5%Z "x") (ListDailyHoroscopesRequest None)
    Sample.anonymous Sample.with_H1_H2
  = server (Sample.rt 5%Z "x") (ListDailyHoroscopesRequest None)
      (Sample.as_user Sample.u1) Sample.with_H1_H2.
Proof.
  destruct unauthenticated_calls_stop_before_the_store as [Hpriv Hpub].
  split.
  - apply Hpriv; reflexivity.
  - apply Hpub; reflexivity.
Defined.

(** ** Primary keys stay unique *)

Section KeyedRows.

Variable R : Type.
Variable key : R -> string.

Lemma fresh_key_not_in (r : R) (l : list R) :
  existsb (fun x => key x =? key r) l = false -> ~ In (key r) (map key l).
Proof.
  intros Hfresh Hin. apply in_map_iff in Hin. destruct Hin as (x & Hk & Hx).
  assert (Hex : existsb (fun x => key x =? key r) l = true).
  { apply existsb_exists. exists x. split; [exact Hx|]. now apply String.eqb_eq. }
  congruence.
Qed.

Lemma unique_after_append (r : R) (l : list R) :
  NoDup (map key l) ->
  existsb (fun x => key x =? key r) l = false ->
  NoDup (map key (l ++ [r])).
Proof.
  intros Hnd Hfresh. rewrite map_app. simpl.
  apply NoDup_app; [exact Hnd | repeat constructor; intros [] |].
  intros k Hk [<-|[]]. now apply (fresh_key_not_in r l).
Qed.

Lemma keys_after_rewrite (set : R -> R) (c : Condition R) (l : list R) :
  (forall r, key (set r) = key r) ->
  map key (map (fun r => if c r then set r else r) l) = map key l.
Proof.
  intros Hset. rewrite map_map. apply map_ext. intros r.
  destruct (c r); [apply Hset | reflexivity].
Qed.

Lemma unique_after_filter (c : Condition R) (l : list R) :
  NoDup (map key l) -> NoDup (map key (filter c l)).
Proof.
  induction l as [|r l IH]; simpl; intros Hnd; [constructor|].
  inversion Hnd as [|k ks Hnotin Hrest]; subst.
  destruct (c r); simpl; [|now apply IH].
  constructor; [|now apply IH].
  intros Hin. apply Hnotin. apply in_map_iff in Hin.
  destruct Hin as (x & Hk & Hx). apply filter_In in Hx.
  apply in_map_iff. exists x. tauto.
Qed.

End KeyedRows.

Lemma preserves_ret (I : Database -> Prop) {A : Type} (a : A) :
  preserves I (ret a).
Proof. intros w Hw. exact Hw. Qed.

Lemma preserves_throw (I : Database -> Prop) {A : Type} (e : Failure) :
  preserves I (@throw A e).
Proof. intros w Hw. exact Hw. Qed.

Lemma preserves_bind (I : Database -> Prop) {A B : Type} (m : Action A)
  (k : A -> Action B) :
  preserves I m -> (forall a, preserves I (k a)) -> preserves I (bind m k).
Proof.
  intros Hm Hk w Hw. unfold bind. specialize (Hm w Hw).
  destruct (m w) as [[e|a] w']; simpl in *; [exact Hm|].
  now apply Hk.
Qed.

Lemma preserves_requireUser (I : Database -> Prop)
  (context : ActionAPIContext) :
  preserves I (requireUser context).
Proof.
  unfold requireUser. destruct (context_user context);
    [apply preserves_ret | apply preserves_throw].
Qed.

Lemma preserves_select (I : Database -> Prop) {R : Type} (T : TableSpec R)
  (c : option (Condition R)) (n : option nat) :
  preserves I (select T c n).
Proof. intros w Hw. exact Hw. Qed.

Lemma unique_insert_profile (r : HoroscopeProfiles.row) :
  preserves unique_keys (insert HoroscopeProfilesT r).
Proof.
  intros w (Hp & Hh & Hv). unfold insert. cbn [rows key HoroscopeProfilesT].
  destruct (existsb _ (profiles (db w))) eqn:Hfresh; simpl;
    [now repeat split|].
  repeat split; try assumption. now apply unique_after_append.
Qed.

Lemma unique_insert_horoscope (r : DailyHoroscopes.row) :
  preserves unique_keys (insert DailyHoroscopesT r).
Proof.
  intros w (Hp & Hh & Hv). unfold insert. cbn [rows key DailyHoroscopesT].
  destruct (existsb _ (horoscopes (db w))) eqn:Hfresh; simpl;
    [now repeat split|].
  repeat split; try assumption. now apply unique_after_append.
Qed.

Lemma unique_insert_view (r : HoroscopeViews.row) :
  preserves unique_keys (insert HoroscopeViewsT r).
Proof.
  intros w (Hp & Hh & Hv). unfold insert.
  cbn [rows key references_exist HoroscopeViewsT].
  destruct (existsb _ (views (db w))) eqn:Hfresh; simpl;
    [now repeat split|].
  destruct (negb _); simpl; [now repeat split|].
  repeat split; try assumption. now apply unique_after_append.
Qed.

Lemma unique_update_profiles (u : HoroscopeProfiles.updates)
  (c : Condition HoroscopeProfiles.row) :
  preserves unique_keys
    (update HoroscopeProfilesT (HoroscopeProfiles.no_values u)
       (HoroscopeProfiles.apply u) c).
Proof.
  intros w (Hp & Hh & Hv). unfold update, unique_keys.
  destruct (HoroscopeProfiles.no_values u); [now repeat split|].
  cbn [snd db record store rows HoroscopeProfilesT profiles horoscopes views].
  repeat split; try assumption.
  now rewrite (keys_after_rewrite _ HoroscopeProfiles.id).
Qed.

Lemma unique_update_horoscopes (u : DailyHoroscopes.updates)
  (c : Condition DailyHoroscopes.row) :
  preserves unique_keys
    (update DailyHoroscopesT (DailyHoroscopes.no_values u)
       (DailyHoroscopes.apply u) c).
Proof.
  intros w (Hp & Hh & Hv). unfold update, unique_keys.
  destruct (DailyHoroscopes.no_values u); [now repeat split|].
  cbn [snd db record store rows DailyHoroscopesT profiles horoscopes views].
  repeat split; try assumption.
  now rewrite (keys_after_rewrite _ DailyHoroscopes.id).
Qed.

Lemma unique_delete_profiles (c : Condition HoroscopeProfiles.row) :
  preserves unique_keys (delete HoroscopeProfilesT c).
Proof.
  intros w (Hp & Hh & Hv). unfold delete.
  destruct (existsb _ _); simpl; [now repeat split|].
  repeat split; try assumption. now apply unique_after_filter.
Qed.

Create HintDb keys.
#[local] Hint Resolve preserves_ret preserves_throw preserves_requireUser
  preserves_select unique_insert_profile unique_insert_horoscope
  unique_insert_view unique_update_profiles unique_update_horoscopes
  unique_delete_profiles : keys.

Ltac step_preserves :=
  repeat first
    [ apply preserves_bind; [|intros ?]
    | match goal with
      | |- preserves _ (match ?x with _ => _ end) => destruct x
      | |- preserves _ (if ?b then _ else _) => destruct b
      end
    | solve [auto with keys] ].

(** Whatever is asked of the server, every table still has pairwise
    distinct primary keys afterwards. *)
Lemma server_keeps_keys_unique (rt : Runtime) (request : Request)
  (context : ActionAPIContext) :
  preserves unique_keys (server rt request context).
Proof.
  destruct request; cbn [server]; unfold reply;
    apply preserves_bind; try (intros ?; apply preserves_ret).
  - unfold createProfile. step_preserves.
  - unfold updateProfile. step_preserves.
  - unfold deleteProfile. step_preserves.
  - unfold listProfiles. step_preserves.
  - unfold createDailyHoroscope. step_preserves.
  - unfold updateDailyHoroscope. step_preserves.
  - unfold getDailyHoroscope. step_preserves.
  - unfold listDailyHoroscopes. step_preserves.
  - unfold logHoroscopeView. step_preserves.
Qed.

(** ** Profiles: creation and listing *)

Lemma existsb_fresh {R : Type} (key : R -> string) (k : string) (l : list R) :
  (forall r, In r l -> key r <> k) ->
  existsb (fun x => key x =? k) l = false.
Proof.
  induction l as [|x l IH]; simpl; intros H; [reflexivity|].
  rewrite IH; [|intros r Hr; apply H; now right].
  destruct (String.eqb_spec (key x) k) as [He|_]; [|reflexivity].
  now elim (H x (or_introl eq_refl)).
Qed.

Lemma createProfile_fresh (rt : Runtime) (input : CreateProfile.input)
  (context : ActionAPIContext) (u : User) (w : World) :
  context_user context = Some u ->
  (forall r, In r (profiles (db w)) -> HoroscopeProfiles.id r <> randomUUID rt) ->
  createProfile rt input context w
  = (inr {| success := true; data := {| data_id := randomUUID rt |} |},
     {| db := {| profiles := profiles (db w) ++ [new_profile rt input u];
                 horoscopes := horoscopes (db w);
                 views := views (db w) |};
        journal := journal w ++ [Insert T_HoroscopeProfiles] |}).
Proof.
  intros Hu Hfresh. unfold createProfile, bind.
  rewrite (requireUser_signed_in _ _ _ Hu). unfold insert.
  cbn [rows key HoroscopeProfilesT HoroscopeProfiles.id].
  now rewrite (existsb_fresh HoroscopeProfiles.id _ _ Hfresh).
Qed.

Lemma listProfiles_run (context : ActionAPIContext) (u : User) (w : World) :
  context_user context = Some u ->
  listProfiles context w
  = (let mine :=
       filter (fun r => HoroscopeProfiles.userId r =? user_id u)
         (profiles (db w)) in
     inr {| success := true;
            data := {| items := mine; total := List.length mine |} |},
     record (Select T_HoroscopeProfiles) w).
Proof.
  intros Hu. unfold listProfiles, bind.
  now rewrite (requireUser_signed_in _ _ _ Hu).
Qed.

(** C6.  For a signed-in caller and an identifier from [randomUUID] that no
    stored profile carries yet, [createProfile] succeeds and returns that
    identifier; exactly one row is appended to the profile table, with that
    identifier, the caller as owner, the input fields, and [createdAt] and
    [updatedAt] both equal to the current time.  Afterwards [listProfiles]
    shows the identifier to the caller and to no caller with a different
    user identifier. *)
Theorem createProfile_listed_for_caller_only :
  forall (rt : Runtime) (input : CreateProfile.input)
         (context : ActionAPIContext) (u : User) (w : World),
    context_user context = Some u ->
    (forall r, In r (profiles (db w)) ->
               HoroscopeProfiles.id r <> randomUUID rt) ->
    exists row w',
      createProfile rt input context w
      = (inr {| success := true; data := {| data_id := randomUUID rt |} |},
         w') /\
      profiles (db w') = profiles (db w) ++ [row] /\
      horoscopes (db w') = horoscopes (db w) /\
      views (db w') = views (db w) /\
      HoroscopeProfiles.id row = randomUUID rt /\
      HoroscopeProfiles.userId row = user_id u /\
      HoroscopeProfiles.createdAt row = now rt /\
      HoroscopeProfiles.updatedAt row = now rt /\
      HoroscopeProfiles.name row = CreateProfile.name input /\
      HoroscopeProfiles.birthDate row = CreateProfile.birthDate input /\
      HoroscopeProfiles.birthTime row = CreateProfile.birthTime input /\
      HoroscopeProfiles.birthPlace row = CreateProfile.birthPlace input /\
      HoroscopeProfiles.zodiacSign row = CreateProfile.zodiacSign input /\
      HoroscopeProfiles.preferredLanguage row
        = CreateProfile.preferredLanguage input /\
      HoroscopeProfiles.notes row = CreateProfile.notes input /\
      In (randomUUID rt) (listed_ids context w') /\
      (forall (context' : ActionAPIContext) (u' : User),
          context_user context' = Some u' ->
          user_id u' <> user_id u ->
          ~ In (randomUUID rt) (listed_ids context' w')).
Proof.
  intros rt input context u w Hu Hfresh.
  exists (new_profile rt input u). eexists.
  split; [exact (createProfile_fresh rt input context u w Hu Hfresh)|].
  cbn [db profiles horoscopes views new_profile HoroscopeProfiles.id
       HoroscopeProfiles.userId HoroscopeProfiles.createdAt
       HoroscopeProfiles.updatedAt HoroscopeProfiles.name
       HoroscopeProfiles.birthDate HoroscopeProfiles.birthTime
       HoroscopeProfiles.birthPlace HoroscopeProfiles.zodiacSign
       HoroscopeProfiles.preferredLanguage HoroscopeProfiles.notes].
  do 14 (split; [reflexivity|]).
  split.
  - unfold listed_ids. rewrite (listProfiles_run _ u _ Hu).
    cbn [fst data items db profiles]. apply in_map_iff.
    exists (new_profile rt input u). split; [reflexivity|].
    apply filter_In. split; [apply in_or_app; right; now left|].
    apply String.eqb_refl.
  - intros context' u' Hu' Hother Hin. unfold listed_ids in Hin.
    rewrite (listProfiles_run _ u' _ Hu') in Hin.
    cbn [fst data items db profiles] in Hin.
    apply in_map_iff in Hin. destruct Hin as (r & Hid & Hr).
    apply filter_In in Hr. destruct Hr as [Hr Hmine].
    apply String.eqb_eq in Hmine.
    apply in_app_or in Hr. destruct Hr as [Hold|[<-|[]]].
    + exact (Hfresh r Hold Hid).
    + apply Hother. symmetry. exact Hmine.
Qed.

Lemma createProfile_listed_for_caller_only_witness :
  exists w',
    createProfile (Sample.rt 100%Z "P1") Sample.self_aries
      (Sample.as_user Sample.u1) Sample.empty
    = (inr {| success := true; data := {| data_id := "P1" |} |}, w') /\
    In "P1" (listed_ids (Sample.as_user Sample.u1) w') /\
    ~ In "P1" (listed_ids (Sample.as_user Sample.u2) w').
Proof.
  destruct (createProfile_listed_for_caller_only
              (Sample.rt 100%Z "P1") Sample.self_aries
              (Sample.as_user Sample.u1) Sample.u1 Sample.empty eq_refl)
    as (row & w' & Hrun & H).
  - intros r [].
  - exists w'. split; [exact Hrun|].
    decompose [and] H. split; [assumption|].
    match goal with
    | Hno : forall c u', _ -> _ -> ~ In _ _ |- _ =>
        apply (Hno (Sample.as_user Sample.u2) Sample.u2 eq_refl)
    end.
    discriminate.
Defined.

(** ** Daily horoscopes: shared content *)

Lemma overwrite_overwritten {A : Type} (supplied : option A) (prior : A) :
  overwritten supplied prior (DailyHoroscopes.overwrite supplied prior).
Proof. destruct supplied; reflexivity. Qed.

Lemma assign_written_horoscope {A : Type} (supplied prior : option A) :
  written supplied prior (DailyHoroscopes.assign supplied prior).
Proof. destruct supplied; reflexivity. Qed.

Lemma updateDailyHoroscope_run (input : UpdateDailyHoroscope.input)
  (context : ActionAPIContext) (u : User) (w : World) :
  context_user context = Some u ->
  updateDailyHoroscope input context w
  = match find (eq_text DailyHoroscopes.id (UpdateDailyHoroscope.id input))
            (horoscopes (db w)) with
    | None =>
        (inl (ActionError NOT_FOUND "Daily horoscope not found."),
         record (Select T_DailyHoroscopes) w)
    | Some _ =>
        if DailyHoroscopes.no_values (horoscope_updates input)
        then (inl NoValuesToSet, record (Select T_DailyHoroscopes) w)
        else
        (inr {| success := true;
                data := {| data_id := UpdateDailyHoroscope.id input |} |},
         {| db :=
              {| profiles := profiles (db w);
                 horoscopes :=
                   map (fun r =>
                          if DailyHoroscopes.id r =? UpdateDailyHoroscope.id input
                          then DailyHoroscopes.apply (horoscope_updates input) r
                          else r)
                     (horoscopes (db w));
                 views := views (db w) |};
            journal := (journal w ++ [Select T_DailyHoroscopes])
                         ++ [Update T_DailyHoroscopes] |})
    end.
Proof.
  intros Hu. unfold updateDailyHoroscope, bind.
  rewrite (requireUser_signed_in _ _ _ Hu), select_first, first_match.
  change (rows DailyHoroscopesT (db w)) with (horoscopes (db w)).
  destruct (find _ (horoscopes (db w))); [|reflexivity].
  unfold update. fold (horoscope_updates input).
  destruct (DailyHoroscopes.no_values (horoscope_updates input)); reflexivity.
Qed.

Lemma defined_true {A : Type} (x : option A) : defined x = true <-> x <> None.
Proof. destruct x; split; try discriminate; try reflexivity. now intros H. Qed.

Lemma supplies_a_field_has_values (input : UpdateDailyHoroscope.input) :
  supplies_a_field input ->
  DailyHoroscopes.no_values (horoscope_updates input) = false.
Proof.
  unfold supplies_a_field, DailyHoroscopes.no_values, horoscope_updates.
  cbn [DailyHoroscopes.set_horoscopeDate DailyHoroscopes.set_zodiacSign
       DailyHoroscopes.set_language DailyHoroscopes.set_generalText
       DailyHoroscopes.set_loveText DailyHoroscopes.set_careerText
       DailyHoroscopes.set_healthText DailyHoroscopes.set_luckyNumber
       DailyHoroscopes.set_luckyColor DailyHoroscopes.set_mood].
  rewrite negb_false_iff, !orb_true_iff, !defined_true. tauto.
Qed.

(** C7, as amended.  [updateDailyHoroscope] never looks at who the caller
    is beyond requiring one.  For a signed-in caller: if a row carries the
    identifier and the input supplies at least one field, the call succeeds
    and rewrites the horoscope table in place, leaving rows with another
    identifier untouched and, in the rows with that identifier, writing the
    supplied fields and keeping the others, [id] and [createdAt] included;
    it throws NOT_FOUND exactly when no row carries the identifier; and any
    two signed-in callers get the same outcome. *)
Theorem updateDailyHoroscope_has_no_ownership_check :
  forall (input : UpdateDailyHoroscope.input) (context : ActionAPIContext)
         (u : User) (w : World),
    context_user context = Some u ->
    ((exists r, In r (horoscopes (db w)) /\
                DailyHoroscopes.id r = UpdateDailyHoroscope.id input) ->
     supplies_a_field input ->
     exists w',
       updateDailyHoroscope input context w
       = (inr {| success := true;
                 data := {| data_id := UpdateDailyHoroscope.id input |} |},
          w') /\
       profiles (db w') = profiles (db w) /\
       views (db w') = views (db w) /\
       List.length (horoscopes (db w')) = List.length (horoscopes (db w)) /\
       forall (i : nat) (r : DailyHoroscopes.row),
         nth_error (horoscopes (db w)) i = Some r ->
         exists r',
           nth_error (horoscopes (db w')) i = Some r' /\
           DailyHoroscopes.id r' = DailyHoroscopes.id r /\
           DailyHoroscopes.createdAt r' = DailyHoroscopes.createdAt r /\
           (DailyHoroscopes.id r <> UpdateDailyHoroscope.id input -> r' = r) /\
           (DailyHoroscopes.id r = UpdateDailyHoroscope.id input ->
            overwritten (UpdateDailyHoroscope.horoscopeDate input)
              (DailyHoroscopes.horoscopeDate r)
              (DailyHoroscopes.horoscopeDate r') /\
            overwritten (UpdateDailyHoroscope.zodiacSign input)
              (DailyHoroscopes.zodiacSign r) (DailyHoroscopes.zodiacSign r') /\
            written (UpdateDailyHoroscope.language input)
              (DailyHoroscopes.language r) (DailyHoroscopes.language r') /\
            overwritten (UpdateDailyHoroscope.generalText input)
              (DailyHoroscopes.generalText r)
              (DailyHoroscopes.generalText r') /\
            written (UpdateDailyHoroscope.loveText input)
              (DailyHoroscopes.loveText r) (DailyHoroscopes.loveText r') /\
            written (UpdateDailyHoroscope.careerText input)
              (DailyHoroscopes.careerText r) (DailyHoroscopes.careerText r') /\
            written (UpdateDailyHoroscope.healthText input)
              (DailyHoroscopes.healthText r) (DailyHoroscopes.healthText r') /\
            written (UpdateDailyHoroscope.luckyNumber input)
              (DailyHoroscopes.luckyNumber r)
              (DailyHoroscopes.luckyNumber r') /\
            written (UpdateDailyHoroscope.luckyColor input)
              (DailyHoroscopes.luckyColor r) (DailyHoroscopes.luckyColor r') /\
            written (UpdateDailyHoroscope.mood input)
              (DailyHoroscopes.mood r) (DailyHoroscopes.mood r'))) /\
    (fst (updateDailyHoroscope input context w)
     = inl (ActionError NOT_FOUND "Daily horoscope not found.")
     <-> forall r, In r (horoscopes (db w)) ->
                   DailyHoroscopes.id r <> UpdateDailyHoroscope.id input) /\
    (forall (context' : ActionAPIContext) (u' : User),
        context_user context' = Some u' ->
        updateDailyHoroscope input context' w
        = updateDailyHoroscope input context w).
Proof.
  intros input context u w Hu. split; [|split].
  - intros (r0 & Hin & Hid) Hsupplied.
    rewrite (updateDailyHoroscope_run input context u w Hu).
    assert (Hc : eq_text DailyHoroscopes.id (UpdateDailyHoroscope.id input) r0
                 = true) by now apply String.eqb_eq.
    destruct (find_present _ _ _ Hin Hc) as (r1 & ->).
    rewrite (supplies_a_field_has_values input Hsupplied).
    eexists. split; [reflexivity|].
    cbn [db profiles horoscopes views].
    split; [reflexivity|]. split; [reflexivity|].
    split; [apply length_map|].
    intros i r Hi. rewrite nth_error_map, Hi. simpl option_map.
    eexists. split; [reflexivity|].
    destruct (String.eqb_spec (DailyHoroscopes.id r)
                (UpdateDailyHoroscope.id input)) as [He|Hne].
    + cbn. do 2 (split; [reflexivity|]).
      split; [intros Hn; contradiction|]. intros _.
      repeat (split;
              [first [apply overwrite_overwritten
                     | apply assign_written_horoscope]|]).
      apply assign_written_horoscope.
    + do 2 (split; [reflexivity|]).
      split; [reflexivity|]. intros He. contradiction.
  - rewrite (updateDailyHoroscope_run input context u w Hu).
    destruct (find _ (horoscopes (db w))) as [r1|] eqn:Hf; cbn [fst].
    + split; [destruct (DailyHoroscopes.no_values _); discriminate|].
      intros Hno.
      destruct (find_some _ _ Hf) as [Hin Hc].
      apply String.eqb_eq in Hc. now elim (Hno r1 Hin).
    + split; [|reflexivity]. intros _ r Hr He.
      pose proof (find_none _ _ Hf r Hr) as Hc. unfold eq_text in Hc.
      apply String.eqb_neq in Hc. contradiction.
  - intros context' u' Hu'.
    now rewrite (updateDailyHoroscope_run input context' u' w Hu'),
      (updateDailyHoroscope_run input context u w Hu).
Qed.

Lemma updateDailyHoroscope_has_no_ownership_check_witness :
  exists w',
    updateDailyHoroscope (Sample.mood_only "H1" "calm")
      (Sample.as_user Sample.u2) Sample.with_H1_H2
    = (inr {| success := true; data := {| data_id := "H1" |} |}, w') /\
    map DailyHoroscopes.mood (horoscopes (db w')) = [Some "calm"; None].
Proof.
  destruct (updateDailyHoroscope_has_no_ownership_check
              (Sample.mood_only "H1" "calm") (Sample.as_user Sample.u2)
              Sample.u2 Sample.with_H1_H2 eq_refl) as (Hfound & _ & _).
  destruct Hfound as (w' & Hrun & _).
  - eexists. split; [left; reflexivity | reflexivity].
  - unfold supplies_a_field. do 9 right. discriminate.
  - exists w'. split; [exact Hrun|].
    vm_compute in Hrun. injection Hrun as <-. reflexivity.
Defined.

(** C7 as stated fails when the input names an existing horoscope and
    supplies no field at all: the set object is empty, [.set] throws, and
    the call does not succeed (nor does it write). *)
Lemma updateDailyHoroscope_without_fields_throws :
  let outcome :=
    updateDailyHoroscope (Sample.id_only "H1") (Sample.as_user Sample.u1)
      Sample.with_H1_H2 in
  (exists r, In r (horoscopes (db Sample.with_H1_H2)) /\
             DailyHoroscopes.id r = "H1") /\
  fst outcome = inl NoValuesToSet /\
  fst outcome <> inr {| success := true; data := {| data_id := "H1" |} |} /\
  db (snd outcome) = db Sample.with_H1_H2.
Proof.
  cbv zeta. split; [|split; [|split]].
  - eexists. split; [left; reflexivity | reflexivity].
  - reflexivity.
  - discriminate.
  - reflexivity.
Qed.

Lemma createDailyHoroscope_run (rt : Runtime)
  (input : CreateDailyHoroscope.input) (context : ActionAPIContext)
  (u : User) (w : World) :
  context_user context = Some u ->
  createDailyHoroscope rt input context w
  = if existsb (fun r => DailyHoroscopes.id r =? randomUUID rt)
         (horoscopes (db w))
    then (inl (UniqueViolation T_DailyHoroscopes),
          record (Insert T_DailyHoroscopes) w)
    else (inr {| success := true;
                 data := {| owned_id := randomUUID rt;
                            ownerId := user_id u |} |},
          {| db := {| profiles := profiles (db w);
                      horoscopes :=
                        horoscopes (db w) ++ [new_horoscope rt input];
                      views := views (db w) |};
             journal := journal w ++ [Insert T_DailyHoroscopes] |}).
Proof.
  intros Hu. unfold createDailyHoroscope, bind.
  rewrite (requireUser_signed_in _ _ _ Hu). unfold insert.
  cbn [rows key DailyHoroscopesT DailyHoroscopes.id].
  destruct (existsb _ (horoscopes (db w))); reflexivity.
Qed.

(** C8.  A successful [createDailyHoroscope] answers with the new
    identifier and an [ownerId] equal to the caller's identifier, and it
    does succeed when the identifier is not taken.  The row it appends is
    built from the input and the clock alone (a [DailyHoroscopes] row has no
    owner column), so the world left behind is the same whoever the caller
    was, and so is the outcome of every later request in that world: the
    [ownerId] of the response is not stored and decides nothing later. *)
Theorem createDailyHoroscope_ownerId_is_not_persisted :
  forall (rt : Runtime) (input : CreateDailyHoroscope.input)
         (context : ActionAPIContext) (u : User) (w : World),
    context_user context = Some u ->
    (forall resp,
        fst (createDailyHoroscope rt input context w) = inr resp ->
        ownerId (data resp) = user_id u /\
        owned_id (data resp) = randomUUID rt /\
        horoscopes (db (snd (createDailyHoroscope rt input context w)))
        = horoscopes (db w) ++ [new_horoscope rt input]) /\
    ((forall r, In r (horoscopes (db w)) ->
                DailyHoroscopes.id r <> randomUUID rt) ->
     exists resp, fst (createDailyHoroscope rt input context w) = inr resp) /\
    (forall (context' : ActionAPIContext) (u' : User),
        context_user context' = Some u' ->
        snd (createDailyHoroscope rt input context' w)
        = snd (createDailyHoroscope rt input context w) /\
        forall (rt' : Runtime) (request : Request)
               (context'' : ActionAPIContext),
          server rt' request context''
            (snd (createDailyHoroscope rt input context' w))
          = server rt' request context''
              (snd (createDailyHoroscope rt input context w))).
Proof.
  intros rt input context u w Hu.
  assert (Hsame : forall context' u',
             context_user context' = Some u' ->
             snd (createDailyHoroscope rt input context' w)
             = snd (createDailyHoroscope rt input context w)).
  { intros context' u' Hu'.
    rewrite (createDailyHoroscope_run rt input context' u' w Hu'),
      (createDailyHoroscope_run rt input context u w Hu).
    destruct (existsb _ (horoscopes (db w))); reflexivity. }
  split; [|split].
  - intros resp. rewrite (createDailyHoroscope_run rt input context u w Hu).
    destruct (existsb _ (horoscopes (db w))); cbn [fst snd];
      [discriminate|].
    intros [= <-]. repeat split.
  - intros Hfresh. rewrite (createDailyHoroscope_run rt input context u w Hu).
    rewrite (existsb_fresh DailyHoroscopes.id _ _ Hfresh).
    eexists. reflexivity.
  - intros context' u' Hu'. split; [now apply (Hsame context' u')|].
    intros rt' request context''. now rewrite (Hsame context' u' Hu').
Qed.

Lemma createDailyHoroscope_ownerId_is_not_persisted_witness :
  (exists resp,
      fst (createDailyHoroscope (Sample.rt 200%Z "H1") (Sample.aries_2024 None)
             (Sample.as_user Sample.u1) Sample.with_P1) = inr resp /\
      ownerId (data resp) = "U1") /\
  snd (createDailyHoroscope (Sample.rt 200%Z "H1") (Sample.aries_2024 None)
         (Sample.as_user Sample.u2) Sample.with_P1)
  = snd (createDailyHoroscope (Sample.rt 200%Z "H1") (Sample.aries_2024 None)
           (Sample.as_user Sample.u1) Sample.with_P1).
Proof.
  destruct (createDailyHoroscope_ownerId_is_not_persisted
              (Sample.rt 200%Z "H1") (Sample.aries_2024 None)
              (Sample.as_user Sample.u1) Sample.u1 Sample.with_P1 eq_refl)
    as (Hresp & Hok & Hany).
  split.
  - destruct Hok as (resp & Hrun); [intros r []|].
    exists resp. split; [exact Hrun|]. now apply Hresp.
  - now apply (Hany (Sample.as_user Sample.u2) Sample.u2).
Defined.

(** ** View log *)



Lemma truthy_nonempty (v : string) : v <> "" -> truthy (Some v) = true.
Proof.
  intros Hv. unfold truthy. now destruct (String.eqb_spec v "").
Qed.

Lemma logHoroscopeView_forbidden (rt : Runtime)
  (input : LogHoroscopeView.input) (context : ActionAPIContext) (u : User)
  (pid : string) (w : World) :
  context_user context = Some u ->
  LogHoroscopeView.profileId input = Some pid ->
  pid <> "" ->
  no_owned_profile pid u w ->
  logHoroscopeView rt input context w
  = (inl (ActionError FORBIDDEN "Profile not found for this user."),
     record (Select T_HoroscopeProfiles) w).
Proof.
  intros Hu Hpid Hne Hno. unfold logHoroscopeView, bind.
  rewrite (requireUser_signed_in _ _ _ Hu), Hpid, (truthy_nonempty _ Hne).
  rewrite select_first, first_match.
  change (rows HoroscopeProfilesT (db w)) with (profiles (db w)).
  now rewrite (owned_lookup_none _ _ _ Hno).
Qed.









(** ** The two scenarios of the specification, run on the model *)

Example scenario_profile_lifecycle :
  let del := {| DeleteProfile.id := "P1" |} in
  let after_delete :=
    snd (deleteProfile del (Sample.as_user Sample.u1) Sample.with_P1) in
  listed_ids (Sample.as_user Sample.u1) Sample.with_P1 = ["P1"] /\
  listed_ids (Sample.as_user Sample.u2) Sample.with_P1 = [] /\
  fst (deleteProfile del (Sample.as_user Sample.u2) Sample.with_P1)
  = inl (ActionError NOT_FOUND "Profile not found.") /\
  fst (deleteProfile del (Sample.as_user Sample.u1) Sample.with_P1)
  = inr {| success := true; data := {| data_id := "P1" |} |} /\
  fst (listProfiles (Sample.as_user Sample.u1) after_delete)
  = inr {| success := true; data := {| items := []; total := 0 |} |}.
Proof. repeat split. Qed.

Example scenario_publish_then_get :
  let published :=
    snd (createDailyHoroscope (Sample.rt 200%Z "H1") (Sample.aries_2024 None)
           (Sample.as_user Sample.u1) Sample.empty) in
  fst (getDailyHoroscope (Sample.rt 999%Z "x")
         {| GetDailyHoroscope.zodiacSign := "aries";
            GetDailyHoroscope.horoscopeDate := Some 1704067200000%Z;
            GetDailyHoroscope.language := None |} published)
  = inr {| success := true;
           data := {| horoscope :=
                        new_horoscope (Sample.rt 200%Z "H1")
                          (Sample.aries_2024 None) |} |}.
Proof. reflexivity. Qed.

(** ** Relating the tables before and after a handler *)

Section Relates.

Variable Rel : Database -> Database -> Prop.
Hypothesis Rel_refl : forall d, Rel d d.
Hypothesis Rel_trans : forall d1 d2 d3, Rel d1 d2 -> Rel d2 d3 -> Rel d1 d3.

Lemma relates_ret {A : Type} (a : A) : relates Rel (ret a).
Proof. intros w. apply Rel_refl. Qed.

Lemma relates_throw {A : Type} (e : Failure) : relates Rel (@throw A e).
Proof. intros w. apply Rel_refl. Qed.

Lemma relates_select {R : Type} (T : TableSpec R) (c : option (Condition R))
  (n : option nat) :
  relates Rel (select T c n).
Proof. intros w. apply Rel_refl. Qed.

Lemma relates_bind {A B : Type} (m : Action A) (k : A -> Action B) :
  relates Rel m -> (forall a, relates Rel (k a)) -> relates Rel (bind m k).
Proof.
  intros Hm Hk w. unfold bind. specialize (Hm w).
  destruct (m w) as [[e|a] w']; simpl in *; [exact Hm|].
  exact (Rel_trans _ _ _ Hm (Hk a w')).
Qed.

Lemma relates_requireUser_bind {B : Type} (context : ActionAPIContext)
  (k : User -> Action B) :
  (forall u, context_user context = Some u -> relates Rel (k u)) ->
  relates Rel (bind (requireUser context) k).
Proof.
  intros Hk w. unfold bind, requireUser.
  destruct (context_user context) as [u|] eqn:Hu; simpl.
  - now apply Hk.
  - apply Rel_refl.
Qed.

End Relates.

(** Peels a handler down to its writes: what is left are goals about a
    single [insert], [update] or [delete]. *)
Ltac step_relates refl trans :=
  cbv zeta;
  repeat first
    [ apply (relates_requireUser_bind _ refl); intros ? ?
    | apply (relates_bind _ trans); [|intros ?]
    | apply (relates_ret _ refl)
    | apply (relates_throw _ refl)
    | apply (relates_select _ refl)
    | match goal with
      | |- relates _ (match ?x with _ => _ end) => destruct x
      | |- relates _ (if ?b then _ else _) => destruct b
      end ].

(** Splits on every test a database statement makes before it writes. *)
Ltac case_statement :=
  repeat match goal with
         | |- context [if ?b then _ else _] => destruct b
         end.

Ltac unfold_handlers :=
  unfold reply, createProfile, updateProfile, deleteProfile, listProfiles,
    createDailyHoroscope, updateDailyHoroscope, getDailyHoroscope,
    listDailyHoroscopes, logHoroscopeView.

Lemma filter_after_rewrite {R : Type} (f : R -> bool) (g : R -> R)
  (l : list R) :
  (forall r, f (g r) = f r) ->
  (forall r, f r = true -> g r = r) ->
  filter f (map g l) = filter f l.
Proof.
  intros Hf Hg. induction l as [|r l IH]; simpl; [reflexivity|].
  rewrite Hf. destruct (f r) eqn:Hr; [|exact IH].
  now rewrite (Hg r Hr), IH.
Qed.

Lemma filter_after_filter {R : Type} (f g : R -> bool) (l : list R) :
  (forall r, f r = true -> g r = true) ->
  filter f (filter g l) = filter f l.
Proof.
  intros H. induction l as [|r l IH]; simpl; [reflexivity|].
  destruct (g r) eqn:Hg; simpl.
  - now rewrite IH.
  - destruct (f r) eqn:Hf; [|exact IH]. rewrite (H r Hf) in Hg. discriminate.
Qed.

(** ** Profiles: what a caller can do to other users' rows *)

Lemma owned_profile_userId (id : string) (u : User)
  (r : HoroscopeProfiles.row) :
  owned_profile id u r = true ->
  (HoroscopeProfiles.userId r =? user_id u) = true.
Proof.
  intros H. apply owned_profile_true in H. destruct H as [_ H].
  now apply String.eqb_eq.
Qed.

(** X5.  Whatever a signed-in caller asks of the server, the profile rows
    owned by other users are afterwards exactly what they were: same rows,
    same contents, same order. *)
Theorem server_leaves_foreign_profiles_alone :
  forall (rt : Runtime) (request : Request) (context : ActionAPIContext)
         (u : User) (w : World),
    context_user context = Some u ->
    foreign_profiles u (db (snd (server rt request context w)))
    = foreign_profiles u (db w).
Proof.
  intros rt request context u w Hu.
  set (Rel := fun d d' : Database =>
                foreign_profiles u d' = foreign_profiles u d).
  assert (refl : forall d, Rel d d) by reflexivity.
  assert (trans : forall d1 d2 d3, Rel d1 d2 -> Rel d2 d3 -> Rel d1 d3).
  { unfold Rel. intros d1 d2 d3 H12 H23. now rewrite H23. }
  assert (H : relates Rel (server rt request context)); [|exact (H w)].
  destruct request; cbn [server]; unfold_handlers;
    step_relates refl trans;
    try match goal with
        | Hu' : context_user context = Some ?u' |- _ =>
            rewrite Hu in Hu'; injection Hu' as <-
        end;
    intros w0; unfold Rel, foreign_profiles, insert, update, delete;
    cbn [rows key table store HoroscopeProfilesT DailyHoroscopesT
         HoroscopeViewsT];
    case_statement; cbn [snd fst db record profiles];
    try reflexivity.
  - rewrite filter_app. cbn [filter HoroscopeProfiles.userId].
    rewrite String.eqb_refl. cbn [negb]. apply app_nil_r.
  - apply filter_after_rewrite; intros row.
    + destruct (owned_profile _ u row); reflexivity.
    + intros Hr. destruct (owned_profile _ u row) eqn:Ho; [|reflexivity].
      rewrite (owned_profile_userId _ _ _ Ho) in Hr. discriminate.
  - apply filter_after_filter. intros row Hr.
    destruct (owned_profile _ u row) eqn:Ho; [|reflexivity].
    rewrite (owned_profile_userId _ _ _ Ho) in Hr. discriminate.
Qed.

Lemma server_leaves_foreign_profiles_alone_witness :
  foreign_profiles Sample.u2
    (db (snd (server (Sample.rt 5%Z "P2")
                (CreateProfileRequest Sample.self_aries)
                (Sample.as_user Sample.u2) Sample.with_P1)))
  = [Sample.new_P1].
Proof.
  exact (eq_trans
           (server_leaves_foreign_profiles_alone (Sample.rt 5%Z "P2")
              (CreateProfileRequest Sample.self_aries)
              (Sample.as_user Sample.u2) Sample.u2 Sample.with_P1 eq_refl)
           eq_refl).
Defined.

(** X6.  After any request, every profile row either stood in the table
    before with the same identifier, owner and creation time, or is the one
    new row: it carries the generated identifier, the current time, and the
    caller as owner.  So no request changes the owner or the creation time
    of a profile, and nobody can create a profile for somebody else. *)
Theorem server_never_reassigns_a_profile :
  forall (rt : Runtime) (request : Request) (context : ActionAPIContext)
         (w : World) (r' : HoroscopeProfiles.row),
    In r' (profiles (db (snd (server rt request context w)))) ->
    (exists r, In r (profiles (db w)) /\
               HoroscopeProfiles.id r' = HoroscopeProfiles.id r /\
               HoroscopeProfiles.userId r' = HoroscopeProfiles.userId r /\
               HoroscopeProfiles.createdAt r' = HoroscopeProfiles.createdAt r) \/
    (HoroscopeProfiles.id r' = randomUUID rt /\
     HoroscopeProfiles.createdAt r' = now rt /\
     exists u, context_user context = Some u /\
               HoroscopeProfiles.userId r' = user_id u).
Proof.
  intros rt request context w.
  set (fresh := fun r' : HoroscopeProfiles.row =>
         HoroscopeProfiles.id r' = randomUUID rt /\
         HoroscopeProfiles.createdAt r' = now rt /\
         exists u, context_user context = Some u /\
                   HoroscopeProfiles.userId r' = user_id u).
  set (Rel := fun d d' : Database =>
         forall r', In r' (profiles d') ->
           (exists r, In r (profiles d) /\
              HoroscopeProfiles.id r' = HoroscopeProfiles.id r /\
              HoroscopeProfiles.userId r' = HoroscopeProfiles.userId r /\
              HoroscopeProfiles.createdAt r' = HoroscopeProfiles.createdAt r) \/
           fresh r').
  assert (refl : forall d, Rel d d).
  { intros d r' Hr'. left. now exists r'. }
  assert (trans : forall d1 d2 d3, Rel d1 d2 -> Rel d2 d3 -> Rel d1 d3).
  { intros d1 d2 d3 H12 H23 r3 H3.
    destruct (H23 r3 H3) as [(r2 & H2 & Hi & Hu & Hc)|Hnew]; [|now right].
    destruct (H12 r2 H2) as [(r1 & H1 & Hi' & Hu' & Hc')|Hnew].
    - left. exists r1. repeat split; congruence.
    - right. unfold fresh in *. rewrite Hi, Hc, Hu. exact Hnew. }
  assert (H : relates Rel (server rt request context)); [|exact (H w)].
  destruct request; cbn [server]; unfold_handlers;
    step_relates refl trans;
    intros w0; unfold insert, update, delete;
    cbn [rows key table store HoroscopeProfilesT DailyHoroscopesT
         HoroscopeViewsT];
    case_statement; cbn [snd fst db record];
    try apply refl; intros row Hrow; cbn [profiles] in Hrow;
    try solve [left; exists row; repeat split; assumption].
  - apply in_app_or in Hrow. destruct Hrow as [Hold|[<-|[]]].
    + left. now exists row.
    + right. repeat split. eexists. split; [eassumption|reflexivity].
  - apply in_map_iff in Hrow. destruct Hrow as (r0 & <- & Hr0). left.
    exists r0. split; [exact Hr0|].
    destruct (owned_profile _ _ r0); repeat split.
  - apply filter_In in Hrow. left. exists row. tauto.
Qed.

Lemma server_never_reassigns_a_profile_witness :
  let after :=
    snd (server (Sample.rt 500%Z "x")
           (UpdateProfileRequest (Sample.rename_only "P1" "Me"))
           (Sample.as_user Sample.u1) Sample.with_P1) in
  let r' := nth 0 (profiles (db after)) Sample.new_P1 in
  HoroscopeProfiles.name r' = Some "Me" /\
  ((exists r, In r (profiles (db Sample.with_P1)) /\
              HoroscopeProfiles.id r' = HoroscopeProfiles.id r /\
              HoroscopeProfiles.userId r' = HoroscopeProfiles.userId r /\
              HoroscopeProfiles.createdAt r' = HoroscopeProfiles.createdAt r) \/
   (HoroscopeProfiles.id r' = "x" /\
    HoroscopeProfiles.createdAt r' = 500%Z /\
    exists u, context_user (Sample.as_user Sample.u1) = Some u /\
              HoroscopeProfiles.userId r' = user_id u)).
Proof.
  intros after r'. split; [reflexivity|].
  apply (server_never_reassigns_a_profile (Sample.rt 500%Z "x")
           (UpdateProfileRequest (Sample.rename_only "P1" "Me"))
           (Sample.as_user Sample.u1) Sample.with_P1 r').
  left. reflexivity.
Defined.

(** ** Daily horoscopes and views are only ever added *)

(** X7.  No request removes, reorders or re-keys a horoscope: the
    identifiers and creation times present before a request are still
    there, at the same positions, after it; anything else comes behind
    them. *)
Theorem server_never_drops_a_horoscope :
  forall (rt : Runtime) (request : Request) (context : ActionAPIContext)
         (w : World),
    exists added,
      horoscope_stamps (db (snd (server rt request context w)))
      = horoscope_stamps (db w) ++ added.
Proof.
  intros rt request context w.
  set (Rel := fun d d' : Database =>
         exists added, horoscope_stamps d' = horoscope_stamps d ++ added).
  assert (refl : forall d, Rel d d).
  { intros d. exists []. now rewrite app_nil_r. }
  assert (trans : forall d1 d2 d3, Rel d1 d2 -> Rel d2 d3 -> Rel d1 d3).
  { intros d1 d2 d3 [a12 H12] [a23 H23]. exists (a12 ++ a23).
    now rewrite H23, H12, app_assoc. }
  assert (H : relates Rel (server rt request context)); [|exact (H w)].
  destruct request; cbn [server]; unfold_handlers;
    step_relates refl trans;
    intros w0; unfold insert, update, delete;
    cbn [rows key table store HoroscopeProfilesT DailyHoroscopesT
         HoroscopeViewsT];
    case_statement; cbn [snd fst db record];
    try apply refl; unfold Rel, horoscope_stamps; cbn [horoscopes];
    try solve [exists []; now rewrite app_nil_r].
  - rewrite map_app. eexists. reflexivity.
  - exists []. rewrite app_nil_r, map_map. apply map_ext. intros row.
    destruct (eq_text _ _ row); reflexivity.
Qed.

(** X8.  The view log is append-only, and only [logHoroscopeView] appends:
    after any request the old view rows are all there, unchanged and in
    order; a request other than [logHoroscopeView] adds nothing; and every
    row that was added belongs to the caller. *)
Theorem server_only_appends_views :
  forall (rt : Runtime) (request : Request) (context : ActionAPIContext)
         (w : World),
    exists added,
      views (db (snd (server rt request context w))) = views (db w) ++ added /\
      (forall v, In v added ->
         (exists input, request = LogHoroscopeViewRequest input) /\
         exists u, context_user context = Some u /\
                   HoroscopeViews.userId v = user_id u).
Proof.
  intros rt request context w.
  set (Rel := fun d d' : Database =>
         exists added,
           views d' = views d ++ added /\
           (forall v, In v added ->
              (exists input, request = LogHoroscopeViewRequest input) /\
              exists u, context_user context = Some u /\
                        HoroscopeViews.userId v = user_id u)).
  assert (refl : forall d, Rel d d).
  { intros d. exists []. split; [now rewrite app_nil_r | intros v []]. }
  assert (trans : forall d1 d2 d3, Rel d1 d2 -> Rel d2 d3 -> Rel d1 d3).
  { intros d1 d2 d3 (a12 & H12 & P12) (a23 & H23 & P23). exists (a12 ++ a23).
    split; [now rewrite H23, H12, app_assoc|].
    intros v Hv. apply in_app_or in Hv. destruct Hv; auto. }
  assert (H : relates Rel (server rt request context)); [|exact (H w)].
  subst Rel.
  destruct request; cbn [server]; unfold_handlers;
    step_relates refl trans;
    intros w0; unfold insert, update, delete;
    cbn [rows key table store HoroscopeProfilesT DailyHoroscopesT
         HoroscopeViewsT];
    case_statement; cbn [snd fst db record views];
    try apply refl;
    try solve [exists []; split; [now rewrite app_nil_r | intros v []]].
  eexists. split; [reflexivity|]. intros v [<-|[]].
  split; [eexists; reflexivity|]. eexists. split; [eassumption|reflexivity].
Qed.

Lemma server_only_appends_views_witness :
  exists added,
    views (db (snd (server (Sample.rt 9%Z "V1")
                      (LogHoroscopeViewRequest (Sample.view None None))
                      (Sample.as_user Sample.u1) Sample.with_H1_H2)))
    = views (db Sample.with_H1_H2) ++ added /\
    List.length added = 1 /\
    forall v, In v added -> HoroscopeViews.userId v = "U1".
Proof.
  destruct (server_only_appends_views (Sample.rt 9%Z "V1")
              (LogHoroscopeViewRequest (Sample.view None None))
              (Sample.as_user Sample.u1) Sample.with_H1_H2)
    as (added & Heq & Hown).
  exists added. split; [exact Heq|]. split.
  - vm_compute in Heq. now rewrite <- Heq.
  - intros v Hv. destruct (Hown v Hv) as (_ & u & [= <-] & Hu). exact Hu.
Defined.

(** X10.  Primary keys stay unique: if no two rows of a table share an
    identifier before a request, none do after it, whatever the request,
    the caller and the generated identifier are. *)
Theorem server_keeps_primary_keys_unique :
  forall (rt : Runtime) (request : Request) (context : ActionAPIContext)
         (w : World),
    unique_keys (db w) ->
    unique_keys (db (snd (server rt request context w))).
Proof.
  intros rt request context w. apply server_keeps_keys_unique.
Qed.

Lemma server_keeps_primary_keys_unique_witness :
  unique_keys
    (db (snd (server (Sample.rt 5%Z "P1")
                (CreateProfileRequest Sample.self_aries)
                (Sample.as_user Sample.u2) Sample.with_H1_H2))).
Proof.
  apply server_keeps_primary_keys_unique.
  repeat split; repeat constructor; simpl; intuition discriminate.
Defined.

(** ** A failed request has written nothing *)

Lemma readonly_requireUser (context : ActionAPIContext) :
  relates eq (requireUser context).
Proof.
  intros w. unfold requireUser. now destruct (context_user context).
Qed.

Lemma atomic_of_readonly {A : Type} (m : Action A) :
  relates eq m -> atomic m.
Proof. intros H w e _. symmetry. apply H. Qed.

Lemma atomic_bind_readonly {A B : Type} (m : Action A) (k : A -> Action B) :
  relates eq m -> (forall a, atomic (k a)) -> atomic (bind m k).
Proof.
  intros Hm Hk w e. unfold bind. specialize (Hm w).
  destruct (m w) as [[e0|a] w']; simpl in *; [now intros _|].
  intros He. rewrite Hm. now apply (Hk a w' e).
Qed.

Lemma atomic_bind_ret {A B : Type} (m : Action A) (f : A -> B) :
  atomic m -> atomic (bind m (fun x => ret (f x))).
Proof.
  intros Hm w e. unfold bind, ret. specialize (Hm w).
  destruct (m w) as [[e0|a] w']; simpl in *; [|discriminate].
  intros _. now apply (Hm e0).
Qed.

Lemma atomic_insert {R : Type} (T : TableSpec R) (r : R) :
  atomic (insert T r).
Proof.
  intros w e. unfold insert. destruct (existsb _ _); simpl;
    [reflexivity|].
  destruct (negb _); simpl; [reflexivity | discriminate].
Qed.

Lemma atomic_update {R : Type} (T : TableSpec R) (no_values : bool)
  (set : R -> R) (c : Condition R) :
  atomic (update T no_values set c).
Proof.
  intros w e. unfold update. destruct no_values; simpl;
    [reflexivity | discriminate].
Qed.

Lemma atomic_delete {R : Type} (T : TableSpec R) (c : Condition R) :
  atomic (delete T c).
Proof.
  intros w e. unfold delete. destruct (existsb _ _); simpl;
    [reflexivity | discriminate].
Qed.

Ltac step_readonly :=
  step_relates (@eq_refl Database) (@eq_trans Database);
  try apply readonly_requireUser.

Ltac step_atomic :=
  cbv zeta;
  repeat first
    [ apply atomic_insert
    | apply atomic_update
    | apply atomic_delete
    | apply atomic_bind_ret
    | apply atomic_bind_readonly; [solve [step_readonly] | intros ?]
    | apply atomic_of_readonly; solve [step_readonly]
    | match goal with
      | |- atomic (match ?x with _ => _ end) => destruct x
      | |- atomic (if ?b then _ else _) => destruct b
      end ].

(** X14.  Whenever a request ends in a failure, of whatever kind, the three
    tables are exactly as they were before it: no handler writes and then
    throws. *)
Theorem server_failure_writes_nothing :
  forall (rt : Runtime) (request : Request) (context : ActionAPIContext)
         (w : World) (e : Failure),
    fst (server rt request context w) = inl e ->
    db (snd (server rt request context w)) = db w.
Proof.
  intros rt request context w e.
  assert (H : atomic (server rt request context)); [|exact (H w e)].
  destruct request; cbn [server]; unfold_handlers; step_atomic.
Qed.

Lemma server_failure_writes_nothing_witness :
  db (snd (server (Sample.rt 5%Z "P1")
             (CreateProfileRequest Sample.self_aries)
             (Sample.as_user Sample.u2) Sample.with_P1))
  = db Sample.with_P1.
Proof.
  apply (server_failure_writes_nothing (Sample.rt 5%Z "P1")
           (CreateProfileRequest Sample.self_aries)
           (Sample.as_user Sample.u2) Sample.with_P1
           (UniqueViolation T_HoroscopeProfiles)).
  reflexivity.
Defined.

(** ** The failures a request can end in *)

Section ThrowsOnly.

Variable P : Failure -> Prop.









End ThrowsOnly.




(** ** Profiles: deletion and listing *)

Lemma filter_keeps_all {R : Type} (f : R -> bool) (l : list R) :
  (forall r, In r l -> f r = true) -> filter f l = l.
Proof.
  induction l as [|r l IH]; simpl; intros H; [reflexivity|].
  rewrite (H r (or_introl eq_refl)), IH; [reflexivity|].
  intros x Hx. apply H. now right.
Qed.

Lemma filter_out_the_keyed_row {R : Type} (key : R -> string)
  (c : Condition R) (l : list R) (x : R) :
  NoDup (map key l) -> In x l -> c x = true ->
  (forall r, c r = true -> key r = key x) ->
  S (List.length (filter (fun r => negb (c r)) l)) = List.length l.
Proof.
  intros Hnd Hx Hcx Hkey. induction l as [|r l IH]; [contradiction|].
  inversion Hnd as [|k ks Hnotin Hrest]; subst. simpl.
  destruct (c r) eqn:Hcr; simpl.
  - f_equal. rewrite filter_keeps_all; [reflexivity|].
    intros y Hy. destruct (c y) eqn:Hcy; [|reflexivity].
    elim Hnotin. rewrite (Hkey r Hcr), <- (Hkey y Hcy). now apply in_map.
  - f_equal. apply IH; [exact Hrest|].
    destruct Hx as [->|Hx]; [congruence | exact Hx].
Qed.

Lemma existsb_none {R : Type} (f : R -> bool) (l : list R) :
  (forall r, In r l -> f r = false) -> existsb f l = false.
Proof.
  induction l as [|r l IH]; simpl; intros H; [reflexivity|].
  rewrite (H r (or_introl eq_refl)), IH; [reflexivity|].
  intros x Hx. apply H. now right.
Qed.

Lemma refers_to_true (ref : option string) (k : string) :
  refers_to ref k = true <-> ref = Some k.
Proof.
  destruct ref as [x|]; simpl; [|split; discriminate].
  rewrite String.eqb_eq. split; congruence.
Qed.

(** The test [delete] makes for [deleteProfile]: is an owned row with that
    identifier named by a view. *)
Lemma owned_profile_viewed (id : string) (u : User) (w : World) :
  (exists r, In r (profiles (db w)) /\ is_owned_profile id u r) ->
  existsb (fun r => owned_profile id u r
                    && referenced HoroscopeProfilesT r (db w))
    (profiles (db w)) = true
  <-> profile_is_viewed id (db w).
Proof.
  intros (r0 & Hin0 & Hown0). unfold profile_is_viewed.
  cbn [referenced HoroscopeProfilesT]. rewrite existsb_exists. split.
  - intros (r & Hr & Hc). apply andb_true_iff in Hc. destruct Hc as [Ho Hv].
    apply owned_profile_true in Ho. destruct Ho as [Hid _].
    apply existsb_exists in Hv. destruct Hv as (v & Hv & Href).
    apply refers_to_true in Href. exists v. split; [exact Hv|]. congruence.
  - intros (v & Hv & Href). exists r0. split; [exact Hin0|].
    apply andb_true_iff. split; [now apply owned_profile_true|].
    apply existsb_exists. exists v. split; [exact Hv|].
    apply refers_to_true. destruct Hown0 as [-> _]. exact Href.
Qed.

Lemma deleteProfile_run (input : DeleteProfile.input)
  (context : ActionAPIContext) (u : User) (w : World) :
  context_user context = Some u ->
  deleteProfile input context w
  = match find (owned_profile (DeleteProfile.id input) u)
            (profiles (db w)) with
    | None =>
        (inl (ActionError NOT_FOUND "Profile not found."),
         record (Select T_HoroscopeProfiles) w)
    | Some _ =>
        if existsb (fun r => owned_profile (DeleteProfile.id input) u r
                             && referenced HoroscopeProfilesT r (db w))
             (profiles (db w))
        then (inl (ForeignKeyViolation T_HoroscopeProfiles),
              record (Delete T_HoroscopeProfiles)
                (record (Select T_HoroscopeProfiles) w))
        else
          (inr {| success := true;
                  data := {| data_id := DeleteProfile.id input |} |},
           {| db :=
                {| profiles :=
                     filter (fun r =>
                               negb (owned_profile (DeleteProfile.id input)
                                       u r))
                       (profiles (db w));
                   horoscopes := horoscopes (db w);
                   views := views (db w) |};
              journal := (journal w ++ [Select T_HoroscopeProfiles])
                           ++ [Delete T_HoroscopeProfiles] |})
    end.
Proof.
  intros Hu. unfold deleteProfile, bind.
  rewrite (requireUser_signed_in _ _ _ Hu), select_first, first_match.
  change (rows HoroscopeProfilesT (db w)) with (profiles (db w)).
  destruct (find _ (profiles (db w))); [|reflexivity].
  unfold delete. cbn [rows table store HoroscopeProfilesT db record].
  destruct (existsb _ (profiles (db w))); reflexivity.
Qed.

Lemma deleteProfile_found (input : DeleteProfile.input)
  (context : ActionAPIContext) (u : User) (w : World) :
  context_user context = Some u ->
  (exists r, In r (profiles (db w)) /\
             is_owned_profile (DeleteProfile.id input) u r) ->
  ~ profile_is_viewed (DeleteProfile.id input) (db w) ->
  deleteProfile input context w
  = (inr {| success := true;
            data := {| data_id := DeleteProfile.id input |} |},
     {| db :=
          {| profiles :=
               filter (fun r =>
                         negb (owned_profile (DeleteProfile.id input) u r))
                 (profiles (db w));
             horoscopes := horoscopes (db w);
             views := views (db w) |};
        journal := (journal w ++ [Select T_HoroscopeProfiles])
                     ++ [Delete T_HoroscopeProfiles] |}).
Proof.
  intros Hu Hex Hfree. rewrite (deleteProfile_run input context u w Hu).
  destruct Hex as (r & Hin & Hown). pose proof Hown as Hc.
  apply owned_profile_true in Hc.
  destruct (find_present _ _ _ Hin Hc) as (r0 & ->).
  destruct (existsb _ (profiles (db w))) eqn:He; [|reflexivity].
  elim Hfree. apply (owned_profile_viewed _ u w); [now exists r | exact He].
Qed.

(** X1.  When the caller owns a profile with the given identifier,
    [deleteProfile] has two outcomes.  If no view row refers to the
    profile, it succeeds and removes from the profile table the rows with
    that identifier and that owner and nothing else: the remaining rows are
    unchanged and in their old order, the horoscopes and the view log are
    not touched, and with unique primary keys exactly one row is gone.  If
    a view row refers to the profile, the database refuses the delete:
    the call fails and every table stays as it was (there is no cascade
    and no dangling view). *)
Theorem deleteProfile_removes_only_the_owned_profile :
  forall (input : DeleteProfile.input) (context : ActionAPIContext)
         (u : User) (w : World),
    context_user context = Some u ->
    (exists r, In r (profiles (db w)) /\
               is_owned_profile (DeleteProfile.id input) u r) ->
    (~ profile_is_viewed (DeleteProfile.id input) (db w) ->
     exists w',
       deleteProfile input context w
       = (inr {| success := true;
                 data := {| data_id := DeleteProfile.id input |} |}, w') /\
       profiles (db w')
       = filter (fun r => negb (owned_profile (DeleteProfile.id input) u r))
           (profiles (db w)) /\
       (forall r, In r (profiles (db w')) <->
                  In r (profiles (db w)) /\
                  ~ is_owned_profile (DeleteProfile.id input) u r) /\
       horoscopes (db w') = horoscopes (db w) /\
       views (db w') = views (db w) /\
       (unique_keys (db w) ->
        S (List.length (profiles (db w'))) = List.length (profiles (db w)))) /\
    (profile_is_viewed (DeleteProfile.id input) (db w) ->
     fst (deleteProfile input context w)
     = inl (ForeignKeyViolation T_HoroscopeProfiles) /\
     db (snd (deleteProfile input context w)) = db w).
Proof.
  intros input context u w Hu Hex. split.
  - intros Hfree. eexists.
    split; [exact (deleteProfile_found input context u w Hu Hex Hfree)|].
    cbn [db profiles horoscopes views].
    split; [reflexivity|].
    split; [|split; [reflexivity|split; [reflexivity|]]].
    + intros r. rewrite filter_In, negb_true_iff, owned_profile_false. tauto.
    + intros (Hnd & _). destruct Hex as (x & Hx & Hown).
      apply (filter_out_the_keyed_row HoroscopeProfiles.id _ _ x Hnd Hx).
      * now apply owned_profile_true.
      * intros r Hr. apply owned_profile_true in Hr.
        destruct Hr as [-> _], Hown as [-> _]. reflexivity.
  - intros Hviewed. rewrite (deleteProfile_run input context u w Hu).
    apply (owned_profile_viewed _ u w Hex) in Hviewed.
    destruct Hex as (r & Hin & Hown). apply owned_profile_true in Hown.
    destruct (find_present _ _ _ Hin Hown) as (r0 & ->).
    rewrite Hviewed. split; reflexivity.
Qed.

Lemma deleteProfile_removes_only_the_owned_profile_witness :
  exists w',
    deleteProfile {| DeleteProfile.id := "P1" |} (Sample.as_user Sample.u1)
      Sample.with_H1_H2
    = (inr {| success := true; data := {| data_id := "P1" |} |}, w') /\
    profiles (db w') = [] /\
    horoscopes (db w') = horoscopes (db Sample.with_H1_H2).
Proof.
  destruct (deleteProfile_removes_only_the_owned_profile
              {| DeleteProfile.id := "P1" |} (Sample.as_user Sample.u1)
              Sample.u1 Sample.with_H1_H2 eq_refl) as [Hfree _].
  - exists Sample.new_P1. split; [left; reflexivity | split; reflexivity].
  - destruct Hfree as (w' & Hrun & Hrows & _ & Hh & _).
    + intros (v & [] & _).
    + exists w'. split; [exact Hrun|]. split; [exact Hrows | exact Hh].
Defined.

(** X2.  After a [deleteProfile] by a signed-in caller that the database
    did not refuse (so it succeeded or answered NOT_FOUND), the caller owns
    no profile with that identifier: a second [deleteProfile] and any
    [updateProfile] of it throw NOT_FOUND, and [listProfiles] does not show
    the identifier to the caller. *)
Theorem deleteProfile_leaves_nothing_to_delete :
  forall (rt : Runtime) (input : DeleteProfile.input)
         (upd : UpdateProfile.input) (context : ActionAPIContext)
         (u : User) (w : World),
    context_user context = Some u ->
    UpdateProfile.id upd = DeleteProfile.id input ->
    fst (deleteProfile input context w)
    <> inl (ForeignKeyViolation T_HoroscopeProfiles) ->
    let w' := snd (deleteProfile input context w) in
    fst (deleteProfile input context w')
    = inl (ActionError NOT_FOUND "Profile not found.") /\
    fst (updateProfile rt upd context w')
    = inl (ActionError NOT_FOUND "Profile not found.") /\
    ~ In (DeleteProfile.id input) (listed_ids context w').
Proof.
  intros rt input upd context u w Hu Hid Hdone w'.
  assert (Hno : no_owned_profile (DeleteProfile.id input) u w').
  { subst w'. revert Hdone.
    rewrite (deleteProfile_run input context u w Hu).
    destruct (find (owned_profile (DeleteProfile.id input) u)
                (profiles (db w))) as [r0|] eqn:Hf.
    - destruct (existsb _ (profiles (db w))); [intros Hdone; now elim Hdone|].
      intros _ r Hr. cbn [snd db profiles] in Hr. apply filter_In in Hr.
      destruct Hr as [_ Hr]. apply negb_true_iff in Hr.
      now apply owned_profile_false.
    - intros _ r Hr. apply owned_profile_false.
      exact (find_none _ _ Hf r Hr). }
  rewrite (deleteProfile_not_found input context u w' Hu Hno).
  rewrite (updateProfile_not_found rt upd context u w' Hu);
    [|now rewrite Hid].
  repeat split. intros Hin. unfold listed_ids in Hin.
  rewrite (listProfiles_run context u w' Hu) in Hin.
  cbn [fst data items] in Hin. apply in_map_iff in Hin.
  destruct Hin as (r & Hrid & Hr). apply filter_In in Hr.
  destruct Hr as [Hr Hmine]. apply String.eqb_eq in Hmine.
  exact (Hno r Hr (conj Hrid Hmine)).
Qed.

Lemma deleteProfile_leaves_nothing_to_delete_witness :
  let del := {| DeleteProfile.id := "P1" |} in
  let w' := snd (deleteProfile del (Sample.as_user Sample.u1) Sample.with_P1) in
  fst (deleteProfile del (Sample.as_user Sample.u1) w')
  = inl (ActionError NOT_FOUND "Profile not found.") /\
  fst (updateProfile (Sample.rt 7%Z "x") (Sample.rename_only "P1" "Me")
         (Sample.as_user Sample.u1) w')
  = inl (ActionError NOT_FOUND "Profile not found.") /\
  ~ In "P1" (listed_ids (Sample.as_user Sample.u1) w').
Proof.
  intros del w'.
  apply (deleteProfile_leaves_nothing_to_delete (Sample.rt 7%Z "x") del
           (Sample.rename_only "P1" "Me") (Sample.as_user Sample.u1)
           Sample.u1 Sample.with_P1); try reflexivity.
  discriminate.
Defined.

Lemma reference_exists_some (k : string) (keys : list string) :
  reference_exists (Some k) keys = true <-> In k keys.
Proof.
  cbn [reference_exists]. rewrite existsb_exists. split.
  - intros (x & Hx & He). apply String.eqb_eq in He. now subst.
  - intros Hk. exists k. split; [exact Hk | apply String.eqb_refl].
Qed.

Lemma fresh_profile_is_not_viewed (id : string) (d : Database) :
  foreign_keys_hold d ->
  (forall r, In r (profiles d) -> HoroscopeProfiles.id r <> id) ->
  ~ profile_is_viewed id d.
Proof.
  intros Hfk Hfresh (v & Hv & Href). specialize (Hfk v Hv).
  cbn [references_exist HoroscopeViewsT] in Hfk.
  apply andb_true_iff in Hfk. destruct Hfk as [Hp _]. rewrite Href in Hp.
  apply reference_exists_some, in_map_iff in Hp.
  destruct Hp as (r & Hid & Hr). exact (Hfresh r Hr Hid).
Qed.

(** X3.  In a database whose foreign keys hold, creating a profile and
    then deleting it under the returned identifier leaves the three tables
    exactly as they were before the creation (the identifier being one no
    stored profile carried, so that no view can refer to it). *)
Theorem createProfile_then_deleteProfile_restores_tables :
  forall (rt : Runtime) (input : CreateProfile.input)
         (context : ActionAPIContext) (u : User) (w : World),
    context_user context = Some u ->
    foreign_keys_hold (db w) ->
    (forall r, In r (profiles (db w)) ->
               HoroscopeProfiles.id r <> randomUUID rt) ->
    let created := createProfile rt input context w in
    let deleted :=
      deleteProfile {| DeleteProfile.id := randomUUID rt |} context
        (snd created) in
    fst created
    = inr {| success := true; data := {| data_id := randomUUID rt |} |} /\
    fst deleted
    = inr {| success := true; data := {| data_id := randomUUID rt |} |} /\
    db (snd deleted) = db w.
Proof.
  intros rt input context u w Hu Hfk Hfresh created deleted.
  subst deleted created.
  rewrite (createProfile_fresh rt input context u w Hu Hfresh).
  cbn [fst snd]. split; [reflexivity|].
  rewrite (deleteProfile_found _ context u _ Hu);
    [| |exact (fresh_profile_is_not_viewed _ _ Hfk Hfresh)].
  - cbn [fst snd db profiles horoscopes views DeleteProfile.id].
    split; [reflexivity|].
    rewrite filter_app, filter_keeps_all.
    + cbn [filter]. replace (owned_profile (randomUUID rt) u
                               (new_profile rt input u)) with true.
      * cbn [negb]. rewrite app_nil_r. now destruct (db w).
      * symmetry. apply owned_profile_true. split; reflexivity.
    + intros r Hr. apply negb_true_iff, owned_profile_false.
      intros [Hid _]. exact (Hfresh r Hr Hid).
  - exists (new_profile rt input u).
    split; [|split; reflexivity].
    cbn [db profiles]. apply in_or_app. right. now left.
Qed.

Lemma createProfile_then_deleteProfile_restores_tables_witness :
  db (snd (deleteProfile {| DeleteProfile.id := "P2" |}
             (Sample.as_user Sample.u2)
             (snd (createProfile (Sample.rt 5%Z "P2") Sample.self_aries
                     (Sample.as_user Sample.u2) Sample.with_H1_H2))))
  = db Sample.with_H1_H2.
Proof.
  apply (createProfile_then_deleteProfile_restores_tables
           (Sample.rt 5%Z "P2") Sample.self_aries (Sample.as_user Sample.u2)
           Sample.u2 Sample.with_H1_H2 eq_refl).
  - intros v [].
  - intros r [<-|[]]. discriminate.
Defined.

(** X4.  For a signed-in caller [listProfiles] always succeeds, reads one
    table and changes none; its items are the caller's own profile rows,
    all of them and no row of anybody else, in table order, and [total] is
    their number. *)
Theorem listProfiles_shows_exactly_the_callers_profiles :
  forall (context : ActionAPIContext) (u : User) (w : World),
    context_user context = Some u ->
    exists shown,
      listProfiles context w
      = (inr {| success := true;
                data := {| items := shown; total := List.length shown |} |},
         record (Select T_HoroscopeProfiles) w) /\
      (forall r, In r shown <->
                 In r (profiles (db w)) /\
                 HoroscopeProfiles.userId r = user_id u) /\
      (exists keep, shown = filter keep (profiles (db w))).
Proof.
  intros context u w Hu. eexists.
  split; [exact (listProfiles_run context u w Hu)|]. split.
  - intros r. rewrite filter_In, String.eqb_eq. reflexivity.
  - eexists. reflexivity.
Qed.

Lemma listProfiles_shows_exactly_the_callers_profiles_witness :
  exists shown,
    fst (listProfiles (Sample.as_user Sample.u1) Sample.with_H1_H2)
    = inr {| success := true;
             data := {| items := shown; total := List.length shown |} |} /\
    In Sample.new_P1 shown.
Proof.
  destruct (listProfiles_shows_exactly_the_callers_profiles
              (Sample.as_user Sample.u1) Sample.u1 Sample.with_H1_H2 eq_refl)
    as (shown & Hrun & Hin & _).
  exists shown. split; [now rewrite Hrun|].
  apply Hin. split; [left; reflexivity | reflexivity].
Defined.

(** ** View log: when a view is recorded *)

Ltac run_select :=
  rewrite select_first, first_match;
  cbn [rows table HoroscopeProfilesT DailyHoroscopesT db record].

Lemma logHoroscopeView_run (rt : Runtime) (input : LogHoroscopeView.input)
  (context : ActionAPIContext) (u : User) (w : World) :
  context_user context = Some u ->
  let profile_found :=
    match LogHoroscopeView.profileId input with
    | Some pid =>
        if truthy (Some pid)
        then match find (owned_profile pid u) (profiles (db w)) with
             | Some _ => true
             | None => false
             end
        else true
    | None => true
    end in
  let horoscope_found :=
    match LogHoroscopeView.dailyHoroscopeId input with
    | Some hid =>
        if truthy (Some hid)
        then match find (eq_text DailyHoroscopes.id hid)
                     (horoscopes (db w)) with
             | Some _ => true
             | None => false
             end
        else true
    | None => true
    end in
  let taken :=
    existsb (fun v => HoroscopeViews.id v =? randomUUID rt) (views (db w)) in
  let stored :=
    reference_exists (LogHoroscopeView.profileId input)
      (map HoroscopeProfiles.id (profiles (db w)))
    && reference_exists (LogHoroscopeView.dailyHoroscopeId input)
         (map DailyHoroscopes.id (horoscopes (db w))) in
  fst (logHoroscopeView rt input context w)
  = (if negb profile_found
     then inl (ActionError FORBIDDEN "Profile not found for this user.")
     else if negb horoscope_found
     then inl (ActionError NOT_FOUND "Daily horoscope not found.")
     else if taken
     then inl (UniqueViolation T_HoroscopeViews)
     else if negb stored
     then inl (ForeignKeyViolation T_HoroscopeViews)
     else inr {| success := true; data := {| data_id := randomUUID rt |} |}) /\
  db (snd (logHoroscopeView rt input context w))
  = (if profile_found && horoscope_found && negb taken && stored
     then {| profiles := profiles (db w);
             horoscopes := horoscopes (db w);
             views := views (db w) ++ [new_view rt input u] |}
     else db w).
Proof.
  intros Hu. cbv zeta. unfold logHoroscopeView, bind, new_view.
  rewrite (requireUser_signed_in _ _ _ Hu).
  destruct (LogHoroscopeView.profileId input) as [pid|];
    [destruct (truthy (Some pid));
     [run_select;
      destruct (find (owned_profile pid u) (profiles (db w)))|]|];
    cbn [ret negb andb fst snd]; try (split; reflexivity);
    (destruct (LogHoroscopeView.dailyHoroscopeId input) as [hid|];
     [destruct (truthy (Some hid));
      [run_select;
       destruct (find (eq_text DailyHoroscopes.id hid) (horoscopes (db w)))|]|]);
    cbn [ret negb andb fst snd]; try (split; reflexivity);
    unfold insert;
    cbn [rows key table store references_exist HoroscopeViewsT db record
         journal HoroscopeViews.id HoroscopeViews.profileId
         HoroscopeViews.dailyHoroscopeId];
    destruct (existsb _ (views (db w)));
    cbn [fst snd db record negb]; try (split; reflexivity);
    match goal with
    | |- context [negb (?a && ?b)] => destruct (a && b)
    end;
    cbn [fst snd db record negb]; split; reflexivity.
Qed.

Lemma found_iff_exists {R : Type} (c : Condition R) (l : list R) :
  (match find c l with Some _ => true | None => false end) = true
  <-> exists r, In r l /\ c r = true.
Proof.
  destruct (find c l) as [r|] eqn:Hf; split.
  - intros _. exists r. exact (find_some _ _ Hf).
  - reflexivity.
  - discriminate.
  - intros (r & Hr & Hc). rewrite (find_none _ _ Hf r Hr) in Hc. discriminate.
Qed.

Lemma reference_exists_true {R : Type} (ref : option string)
  (key : R -> string) (l : list R) :
  reference_exists ref (map key l) = true
  <-> forall k, ref = Some k -> exists r, In r l /\ key r = k.
Proof.
  destruct ref as [k|].
  - rewrite reference_exists_some, in_map_iff. split.
    + intros (r & Hk & Hr) k' [= <-]. now exists r.
    + intros H. destruct (H k eq_refl) as (r & Hr & Hk). now exists r.
  - split; [intros _ k [=] | reflexivity].
Qed.

(** X9.  For a signed-in caller [logHoroscopeView] succeeds exactly when
    each given non-empty reference passes the handler's check (a profile of
    the caller, an existing horoscope), every given reference, the empty
    string included, is the identifier of a stored row as the foreign keys
    demand, and the generated identifier is not taken.  Then exactly one
    view row is appended, owned by the caller, with the two references and
    the device info as given and both timestamps equal to the current time,
    and the other tables stay as they are; otherwise nothing is written. *)
Theorem logHoroscopeView_succeeds_iff_references_hold :
  forall (rt : Runtime) (input : LogHoroscopeView.input)
         (context : ActionAPIContext) (u : User) (w : World),
    context_user context = Some u ->
    let ok :=
      profile_reference_ok (LogHoroscopeView.profileId input) u (db w) /\
      horoscope_reference_ok (LogHoroscopeView.dailyHoroscopeId input) (db w) /\
      references_stored input (db w) /\
      (forall v, In v (views (db w)) -> HoroscopeViews.id v <> randomUUID rt) in
    (fst (logHoroscopeView rt input context w)
     = inr {| success := true; data := {| data_id := randomUUID rt |} |}
     <-> ok) /\
    ((exists resp, fst (logHoroscopeView rt input context w) = inr resp)
     -> ok) /\
    (ok ->
     db (snd (logHoroscopeView rt input context w))
     = {| profiles := profiles (db w);
          horoscopes := horoscopes (db w);
          views := views (db w) ++ [new_view rt input u] |}) /\
    (~ ok -> db (snd (logHoroscopeView rt input context w)) = db w).
Proof.
  intros rt input context u w Hu ok.
  destruct (logHoroscopeView_run rt input context u w Hu) as [Hres Hdb].
  cbv zeta in Hres, Hdb.
  set (pf := match LogHoroscopeView.profileId input with
             | Some pid => _ | None => true end) in *.
  set (hf := match LogHoroscopeView.dailyHoroscopeId input with
             | Some hid => _ | None => true end) in *.
  set (taken := existsb _ (views (db w))) in *.
  set (stored := reference_exists _ _ && reference_exists _ _) in *.
  assert (Hp : pf = true <->
               profile_reference_ok (LogHoroscopeView.profileId input) u (db w)).
  { subst pf. unfold profile_reference_ok.
    destruct (LogHoroscopeView.profileId input) as [pid|].
    - unfold truthy. destruct (String.eqb_spec pid "") as [->|Hne]; cbn [negb].
      + split; [|reflexivity]. intros _ p [= <-] Hempty. now elim Hempty.
      + rewrite found_iff_exists. split.
        * intros (r & Hr & Hc) p [= <-] _. exists r.
          split; [exact Hr | now apply owned_profile_true].
        * intros H. destruct (H pid eq_refl Hne) as (r & Hr & Hc).
          exists r. split; [exact Hr | now apply owned_profile_true].
    - split; [|reflexivity]. intros _ p [=]. }
  assert (Hh : hf = true <->
               horoscope_reference_ok
                 (LogHoroscopeView.dailyHoroscopeId input) (db w)).
  { subst hf. unfold horoscope_reference_ok.
    destruct (LogHoroscopeView.dailyHoroscopeId input) as [hid|].
    - unfold truthy. destruct (String.eqb_spec hid "") as [->|Hne]; cbn [negb].
      + split; [|reflexivity]. intros _ p [= <-] Hempty. now elim Hempty.
      + rewrite found_iff_exists. split.
        * intros (r & Hr & Hc) p [= <-] _. exists r.
          split; [exact Hr | now apply String.eqb_eq].
        * intros H. destruct (H hid eq_refl Hne) as (r & Hr & Hc).
          exists r. split; [exact Hr | now apply String.eqb_eq].
    - split; [|reflexivity]. intros _ p [=]. }
  assert (Ht : taken = false <->
               forall v, In v (views (db w)) ->
                         HoroscopeViews.id v <> randomUUID rt).
  { subst taken. split.
    - intros Hf v Hv He.
      assert (Hex : existsb (fun v => HoroscopeViews.id v =? randomUUID rt)
                      (views (db w)) = true).
      { apply existsb_exists. exists v. split; [exact Hv|].
        now apply String.eqb_eq. }
      congruence.
    - apply existsb_fresh. }
  assert (Hs : stored = true <-> references_stored input (db w)).
  { subst stored. unfold references_stored.
    now rewrite andb_true_iff, !reference_exists_true. }
  assert (Hok : pf && hf && negb taken && stored = true <-> ok).
  { subst ok. rewrite !andb_true_iff, negb_true_iff, Hp, Hh, Ht, Hs. tauto. }
  rewrite Hres, Hdb.
  destruct pf, hf, taken, stored; cbn [negb andb] in *;
    (split; [split; [intros He; try discriminate He; now apply Hok
                    | intros Hk; try reflexivity;
                      apply Hok in Hk; discriminate Hk]|]);
    (split; [intros (resp & He); try discriminate He; now apply Hok|]);
    (split; [intros Hk; try reflexivity; apply Hok in Hk; discriminate Hk|]);
    intros Hn; try reflexivity; elim Hn; now apply Hok.
Qed.

Lemma logHoroscopeView_succeeds_iff_references_hold_witness :
  fst (logHoroscopeView (Sample.rt 9%Z "V1")
         (Sample.view (Some "P1") (Some "H2")) (Sample.as_user Sample.u1)
         Sample.with_H1_H2)
  = inr {| success := true; data := {| data_id := "V1" |} |}.
Proof.
  destruct (logHoroscopeView_succeeds_iff_references_hold
              (Sample.rt 9%Z "V1") (Sample.view (Some "P1") (Some "H2"))
              (Sample.as_user Sample.u1) Sample.u1 Sample.with_H1_H2 eq_refl)
    as ([_ Hok] & _).
  apply Hok. split; [|split; [|split; [split|]]].
  - intros pid [= <-] _. exists Sample.new_P1.
    split; [left; reflexivity | split; reflexivity].
  - intros hid [= <-] _. eexists.
    split; [right; left; reflexivity | reflexivity].
  - intros pid [= <-]. exists Sample.new_P1.
    split; [left; reflexivity | reflexivity].
  - intros hid [= <-]. eexists.
    split; [right; left; reflexivity | reflexivity].
  - intros v [].
Defined.

(** ** Daily horoscopes: listing, and how listing, lookup and publishing
    fit together *)

Lemma and_append {R : Type} (cs : list (Condition R)) (c : Condition R)
  (r : R) :
  and_ (cs ++ [c]) r = and_ cs r && c r.
Proof.
  unfold and_. rewrite forallb_app. simpl. now rewrite andb_true_r.
Qed.

Lemma and_push_if_truthy {R : Type} (field : option string)
  (cond : string -> Condition R) (cs : list (Condition R)) (r : R) :
  and_ (push_if_truthy field cond cs) r = true
  <-> and_ cs r = true /\
      (forall v, field = Some v -> v <> "" -> cond v r = true).
Proof.
  unfold push_if_truthy, truthy. destruct field as [v|].
  - destruct (String.eqb_spec v "") as [->|Hne]; cbn [negb].
    + split; [intros H; split; [exact H|] | tauto].
      intros v [= <-] Hv. now elim Hv.
    + rewrite and_append, andb_true_iff. split; intros [H1 H2]; split; auto.
      intros v' [= <-] _. exact H2.
  - split; [intros H; split; [exact H|] | tauto]. intros v [=].
Qed.

Lemma and_push_if_defined {R : Type} (field : option Date)
  (cond : Date -> Condition R) (cs : list (Condition R)) (r : R) :
  and_ (push_if_defined field cond cs) r = true
  <-> and_ cs r = true /\ (forall v, field = Some v -> cond v r = true).
Proof.
  unfold push_if_defined. destruct field as [v|].
  - rewrite and_append, andb_true_iff. split; intros [H1 H2]; split; auto.
    intros v' [= <-]. exact H2.
  - split; [intros H; split; [exact H|] | tauto]. intros v [=].
Qed.

Lemma one_or_and_is_and {R : Type} (cs : list (Condition R)) (r : R) :
  one_or_and cs r = and_ cs r.
Proof.
  destruct cs as [|c [|c' cs]]; try reflexivity.
  unfold and_. simpl. now rewrite andb_true_r.
Qed.

Lemma select_all_or_filtered {R : Type} (T : TableSpec R)
  (cs : list (Condition R)) (w : World) :
  (if Nat.ltb 0 (List.length cs)
   then select T (Some (one_or_and cs)) None
   else select T None None) w
  = (inr (filter (and_ cs) (rows T (db w))), record (Select (table T)) w).
Proof.
  destruct cs as [|c cs]; cbn [List.length Nat.ltb Nat.leb]; unfold select.
  - f_equal. f_equal. symmetry. now apply filter_keeps_all.
  - f_equal. f_equal. apply filter_ext. apply one_or_and_is_and.
Qed.

(** The conditions [listDailyHoroscopes] collects from its input. *)
Lemma listDailyHoroscopes_run (input : option ListDailyHoroscopes.input)
  (w : World) :
  exists cs : list (Condition DailyHoroscopes.row),
    (forall r, and_ cs r = true <-> list_matches input r) /\
    (input = None -> cs = []) /\
    (forall sign date language, sign <> "" ->
       input = Some {| ListDailyHoroscopes.zodiacSign := Some sign;
                       ListDailyHoroscopes.horoscopeDate := Some date;
                       ListDailyHoroscopes.language := language |} ->
       cs = push_if_truthy language (eq_opt_text DailyHoroscopes.language)
              [eq_text DailyHoroscopes.zodiacSign sign;
               eq_date DailyHoroscopes.horoscopeDate date]) /\
    listDailyHoroscopes input w
    = (let shown := filter (and_ cs) (horoscopes (db w)) in
       inr {| success := true;
              data := {| items := shown; total := List.length shown |} |},
       record (Select T_DailyHoroscopes) w).
Proof.
  eexists. split; [|split; [|split]].
  4: { unfold listDailyHoroscopes, bind. cbv zeta.
       rewrite select_all_or_filtered. reflexivity. }
  - intros r.
    rewrite and_push_if_truthy, and_push_if_defined, and_push_if_truthy.
    unfold list_matches. destruct input as [i|].
    + unfold eq_text, eq_date. split.
      * intros (((_ & Hs) & Hd) & Hl). repeat split.
        -- intros s Es Hne. apply String.eqb_eq. now apply Hs.
        -- intros d Ed. apply Z.eqb_eq. now apply Hd.
        -- intros l El Hne. apply eq_opt_text_true. now apply Hl.
      * intros (Hs & Hd & Hl). repeat split.
        -- intros s Es Hne. apply String.eqb_eq. now apply Hs.
        -- intros d Ed. apply Z.eqb_eq. now apply Hd.
        -- intros l El Hne. apply eq_opt_text_true. now apply Hl.
    + split; [trivial|]. intros _. repeat split; intros v [=].
  - intros ->. reflexivity.
  - intros sign date language Hne ->.
    cbn [ListDailyHoroscopes.zodiacSign ListDailyHoroscopes.horoscopeDate
         ListDailyHoroscopes.language].
    unfold push_if_truthy at 2. rewrite (truthy_nonempty _ Hne).
    reflexivity.
Qed.

(** X11.  [listDailyHoroscopes] never fails and needs no caller; it reads
    one table and changes none.  Its items are the horoscope rows, in table
    order, that agree with every filter that was given and is not empty
    (sign, exact date, language); with no input at all it returns every
    row; [total] is the number of items. *)
Theorem listDailyHoroscopes_returns_the_matching_rows :
  forall (input : option ListDailyHoroscopes.input) (w : World),
    exists shown,
      listDailyHoroscopes input w
      = (inr {| success := true;
                data := {| items := shown; total := List.length shown |} |},
         record (Select T_DailyHoroscopes) w) /\
      (forall r, In r shown <->
                 In r (horoscopes (db w)) /\ list_matches input r) /\
      (exists keep, shown = filter keep (horoscopes (db w))) /\
      (input = None -> shown = horoscopes (db w)).
Proof.
  intros input w.
  destruct (listDailyHoroscopes_run input w) as (cs & Hcs & Hnone & _ & Hrun).
  eexists. split; [exact Hrun|]. split; [|split].
  - intros r. rewrite filter_In, Hcs. reflexivity.
  - eexists. reflexivity.
  - intros Hin. rewrite (Hnone Hin). now apply filter_keeps_all.
Qed.

Lemma listDailyHoroscopes_returns_the_matching_rows_witness :
  exists shown,
    fst (listDailyHoroscopes None Sample.with_H1_H2)
    = inr {| success := true;
             data := {| items := shown; total := List.length shown |} |} /\
    shown = horoscopes (db Sample.with_H1_H2).
Proof.
  destruct (listDailyHoroscopes_returns_the_matching_rows None
              Sample.with_H1_H2) as (shown & Hrun & _ & _ & Hall).
  exists shown. split; [now rewrite Hrun | now apply Hall].
Defined.

Lemma find_is_head_of_filter {R : Type} (c : Condition R) (l : list R) :
  find c l = hd_error (filter c l).
Proof.
  induction l as [|r l IH]; simpl; [reflexivity|].
  destruct (c r); [reflexivity | exact IH].
Qed.

(** X12.  [getDailyHoroscope] agrees with [listDailyHoroscopes] asked for
    the same (non-empty) sign, the same target date and the same language:
    it returns the first item of that list, and throws NOT_FOUND exactly
    when the list is empty. *)
Theorem getDailyHoroscope_is_first_of_listDailyHoroscopes :
  forall (rt : Runtime) (sign : string) (date : option Date)
         (language : option string) (w : World),
    sign <> "" ->
    exists shown,
      fst (listDailyHoroscopes
             (Some {| ListDailyHoroscopes.zodiacSign := Some sign;
                      ListDailyHoroscopes.horoscopeDate :=
                        Some (target_date rt date);
                      ListDailyHoroscopes.language := language |}) w)
      = inr {| success := true;
               data := {| items := shown; total := List.length shown |} |} /\
      fst (getDailyHoroscope rt
             {| GetDailyHoroscope.zodiacSign := sign;
                GetDailyHoroscope.horoscopeDate := date;
                GetDailyHoroscope.language := language |} w)
      = match shown with
        | h :: _ => inr {| success := true; data := {| horoscope := h |} |}
        | [] => inl (ActionError NOT_FOUND
                       "No horoscope found for the given sign and date.")
        end.
Proof.
  intros rt sign date language w Hne.
  destruct (listDailyHoroscopes_run
              (Some {| ListDailyHoroscopes.zodiacSign := Some sign;
                       ListDailyHoroscopes.horoscopeDate :=
                         Some (target_date rt date);
                       ListDailyHoroscopes.language := language |}) w)
    as (cs & _ & _ & Hcs & Hrun).
  specialize (Hcs sign (target_date rt date) language Hne eq_refl).
  eexists. split; [rewrite Hrun; reflexivity|].
  rewrite getDailyHoroscope_run. cbn [fst GetDailyHoroscope.zodiacSign
    GetDailyHoroscope.horoscopeDate GetDailyHoroscope.language].
  rewrite find_is_head_of_filter.
  replace (filter (get_condition sign (target_date rt date) language)
             (horoscopes (db w)))
    with (filter (and_ cs) (horoscopes (db w))).
  - destruct (filter (and_ cs) (horoscopes (db w))); reflexivity.
  - apply filter_ext. intros r. unfold get_condition.
    now rewrite one_or_and_is_and, Hcs.
Qed.

Lemma getDailyHoroscope_is_first_of_listDailyHoroscopes_witness :
  exists shown,
    fst (listDailyHoroscopes
           (Some {| ListDailyHoroscopes.zodiacSign := Some "aries";
                    ListDailyHoroscopes.horoscopeDate :=
                      Some 1704067200000%Z;
                    ListDailyHoroscopes.language := None |})
           Sample.with_H1_H2)
    = inr {| success := true;
             data := {| items := shown; total := List.length shown |} |} /\
    List.length shown = 2 /\
    fst (getDailyHoroscope (Sample.rt 1704067200000%Z "x")
           {| GetDailyHoroscope.zodiacSign := "aries";
              GetDailyHoroscope.horoscopeDate := None;
              GetDailyHoroscope.language := None |} Sample.with_H1_H2)
    = match shown with
      | h :: _ => inr {| success := true; data := {| horoscope := h |} |}
      | [] => inl (ActionError NOT_FOUND
                     "No horoscope found for the given sign and date.")
      end.
Proof.
  destruct (getDailyHoroscope_is_first_of_listDailyHoroscopes
              (Sample.rt 1704067200000%Z "x") "aries" None None
              Sample.with_H1_H2) as (shown & Hlist & Hget).
  - discriminate.
  - exists shown. split; [exact Hlist|]. split; [|exact Hget].
    vm_compute in Hlist. now injection Hlist as <-.
Defined.

(** X13.  A horoscope that was just published can be looked up: after a
    successful [createDailyHoroscope] (the generated identifier was free),
    [getDailyHoroscope] for the published sign, date and language succeeds
    for any caller and at any later time, and what it returns has that sign
    and date; it is the published row itself unless an older row already
    passed the same filter. *)
Theorem createDailyHoroscope_then_getDailyHoroscope_finds_one :
  forall (rt rt' : Runtime) (input : CreateDailyHoroscope.input)
         (context : ActionAPIContext) (u : User) (w : World),
    context_user context = Some u ->
    (forall r, In r (horoscopes (db w)) ->
               DailyHoroscopes.id r <> randomUUID rt) ->
    let matches :=
      horoscope_matches (CreateDailyHoroscope.zodiacSign input)
        (CreateDailyHoroscope.horoscopeDate input)
        (CreateDailyHoroscope.language input) in
    exists h,
      fst (getDailyHoroscope rt'
             {| GetDailyHoroscope.zodiacSign :=
                  CreateDailyHoroscope.zodiacSign input;
                GetDailyHoroscope.horoscopeDate :=
                  Some (CreateDailyHoroscope.horoscopeDate input);
                GetDailyHoroscope.language :=
                  CreateDailyHoroscope.language input |}
             (snd (createDailyHoroscope rt input context w)))
      = inr {| success := true; data := {| horoscope := h |} |} /\
      matches h /\
      ((forall r, In r (horoscopes (db w)) -> ~ matches r) ->
       h = new_horoscope rt input).
Proof.
  intros rt rt' input context u w Hu Hfresh matches.
  rewrite (createDailyHoroscope_run rt input context u w Hu),
    (existsb_fresh DailyHoroscopes.id _ _ Hfresh).
  rewrite getDailyHoroscope_run.
  cbn [fst snd db horoscopes target_date GetDailyHoroscope.zodiacSign
       GetDailyHoroscope.horoscopeDate GetDailyHoroscope.language].
  set (c := get_condition _ _ _).
  assert (Hnew : c (new_horoscope rt input) = true).
  { apply get_condition_true. repeat split. intros l Hl _. exact Hl. }
  assert (Hin : In (new_horoscope rt input)
                  (horoscopes (db w) ++ [new_horoscope rt input])).
  { apply in_or_app. right. now left. }
  destruct (find_present c _ _ Hin Hnew) as (h & Hfind).
  exists h. rewrite Hfind. split; [reflexivity|]. split.
  - apply get_condition_true. exact (proj2 (find_some _ _ Hfind)).
  - intros Hnone.
    rewrite (find_first c (horoscopes (db w)) [] (new_horoscope rt input))
      in Hfind; [congruence | | exact Hnew].
    intros x Hx. apply get_condition_false. now apply Hnone.
Qed.

Lemma createDailyHoroscope_then_getDailyHoroscope_finds_one_witness :
  exists h,
    fst (getDailyHoroscope (Sample.rt 999%Z "x")
           {| GetDailyHoroscope.zodiacSign := "aries";
              GetDailyHoroscope.horoscopeDate := Some 1704067200000%Z;
              GetDailyHoroscope.language := Some "en" |}
           (snd (createDailyHoroscope (Sample.rt 300%Z "H3")
                   (Sample.aries_2024 (Some "en"))
                   (Sample.as_user Sample.u2) Sample.with_P1)))
    = inr {| success := true; data := {| horoscope := h |} |} /\
    DailyHoroscopes.id h = "H3".
Proof.
  destruct (createDailyHoroscope_then_getDailyHoroscope_finds_one
              (Sample.rt 300%Z "H3") (Sample.rt 999%Z "x")
              (Sample.aries_2024 (Some "en")) (Sample.as_user Sample.u2)
              Sample.u2 Sample.with_P1 eq_refl)
    as (h & Hget & _ & Hnew).
  - intros r [].
  - exists h. split; [exact Hget|]. rewrite Hnew; [reflexivity|].
    intros r [].
Defined.

(** ** Profiles: how the operations compose *)

Lemma assign_twice {A : Type} (supplied prior : option A) :
  HoroscopeProfiles.assign supplied (HoroscopeProfiles.assign supplied prior)
  = HoroscopeProfiles.assign supplied prior.
Proof. destruct supplied; reflexivity. Qed.

(** X16.  [updateProfile] is idempotent: sending the same update a second
    time (at the same clock reading) leaves the tables exactly as the first
    one left them, whether the update applied or was refused. *)
Theorem updateProfile_twice_is_once :
  forall (rt : Runtime) (input : UpdateProfile.input)
         (context : ActionAPIContext) (w : World),
    let once := updateProfile rt input context w in
    let twice := updateProfile rt input context (snd once) in
    fst twice = fst once /\ db (snd twice) = db (snd once).
Proof.
  intros rt input context w once twice. subst twice once.
  destruct (context_user context) as [u|] eqn:Hu.
  - destruct (find (owned_profile (UpdateProfile.id input) u)
                (profiles (db w))) as [r0|] eqn:Hf.
    + destruct (find_some _ _ Hf) as [Hin Hown].
      apply owned_profile_true in Hown.
      rewrite (updateProfile_found rt input context u w Hu
                 (ex_intro _ r0 (conj Hin Hown))).
      cbn [snd].
      rewrite (updateProfile_found rt input context u _ Hu).
      * cbn [fst snd db profiles horoscopes views]. split; [reflexivity|].
        f_equal. rewrite map_map. apply map_ext. intros r.
        destruct (owned_profile (UpdateProfile.id input) u r) eqn:Ho;
          [|now rewrite Ho].
        match goal with
        | |- (if owned_profile ?i ?v ?x then _ else _) = _ =>
            change (owned_profile i v x) with (owned_profile i v r)
        end.
        rewrite Ho. cbn. f_equal; apply assign_twice.
      * cbn [db profiles]. eexists. split.
        -- apply in_map_iff. exists r0. split; [reflexivity | exact Hin].
        -- pose proof Hown as Hc. apply owned_profile_true in Hc.
           rewrite Hc. exact Hown.
    + assert (Hno : no_owned_profile (UpdateProfile.id input) u w).
      { intros r Hr. apply owned_profile_false. exact (find_none _ _ Hf r Hr). }
      rewrite (updateProfile_not_found rt input context u w Hu Hno).
      cbn [snd].
      rewrite (updateProfile_not_found rt input context u _ Hu);
        [split; reflexivity | exact Hno].
  - assert (Hanon : forall w0,
               updateProfile rt input context w0 = (inl unauthorized, w0)).
    { intros w0. unfold updateProfile, bind.
      now rewrite (requireUser_anonymous _ _ Hu). }
    rewrite (Hanon w). cbn [snd]. rewrite (Hanon w). split; reflexivity.
Qed.

(** X17.  The caller reads back what was written: after a successful
    [updateProfile], [listProfiles] shows the caller a profile with that
    identifier, and every such item carries each supplied value and has
    [updatedAt] equal to the time of the update. *)
Theorem updateProfile_then_listProfiles_shows_the_update :
  forall (rt : Runtime) (input : UpdateProfile.input)
         (context : ActionAPIContext) (u : User) (w : World),
    context_user context = Some u ->
    (exists r, In r (profiles (db w)) /\
               is_owned_profile (UpdateProfile.id input) u r) ->
    exists shown,
      fst (listProfiles context (snd (updateProfile rt input context w)))
      = inr {| success := true;
               data := {| items := shown; total := List.length shown |} |} /\
      In (UpdateProfile.id input) (map HoroscopeProfiles.id shown) /\
      forall r, In r shown ->
        HoroscopeProfiles.id r = UpdateProfile.id input ->
        HoroscopeProfiles.updatedAt r = now rt /\
        (forall v, UpdateProfile.name input = Some v ->
                   HoroscopeProfiles.name r = Some v) /\
        (forall v, UpdateProfile.birthDate input = Some v ->
                   HoroscopeProfiles.birthDate r = Some v) /\
        (forall v, UpdateProfile.birthTime input = Some v ->
                   HoroscopeProfiles.birthTime r = Some v) /\
        (forall v, UpdateProfile.birthPlace input = Some v ->
                   HoroscopeProfiles.birthPlace r = Some v) /\
        (forall v, UpdateProfile.zodiacSign input = Some v ->
                   HoroscopeProfiles.zodiacSign r = Some v) /\
        (forall v, UpdateProfile.preferredLanguage input = Some v ->
                   HoroscopeProfiles.preferredLanguage r = Some v) /\
        (forall v, UpdateProfile.notes input = Some v ->
                   HoroscopeProfiles.notes r = Some v).
Proof.
  intros rt input context u w Hu Hex.
  rewrite (updateProfile_found rt input context u w Hu Hex).
  rewrite (listProfiles_run context u _ Hu).
  cbn [fst snd db profiles record]. eexists. split; [reflexivity|]. split.
  - destruct Hex as (r0 & Hin & Hown). apply in_map_iff.
    pose proof Hown as Hc. apply owned_profile_true in Hc.
    eexists. split; [|apply filter_In; split;
                      [apply in_map_iff; exists r0; split;
                       [reflexivity | exact Hin]|]];
      rewrite Hc; cbn; [apply Hown | apply String.eqb_eq, Hown].
  - intros r Hr Hid. apply filter_In in Hr. destruct Hr as [Hr Hmine].
    apply String.eqb_eq in Hmine. apply in_map_iff in Hr.
    destruct Hr as (r0 & <- & _).
    destruct (owned_profile (UpdateProfile.id input) u r0) eqn:Ho.
    + cbn. split; [reflexivity|].
      repeat split; intros v ->; reflexivity.
    + apply owned_profile_false in Ho. elim Ho. split; assumption.
Qed.

Lemma updateProfile_then_listProfiles_shows_the_update_witness :
  exists shown,
    fst (listProfiles (Sample.as_user Sample.u1)
           (snd (updateProfile (Sample.rt 500%Z "x")
                   (Sample.rename_only "P1" "Me") (Sample.as_user Sample.u1)
                   Sample.with_P1)))
    = inr {| success := true;
             data := {| items := shown; total := List.length shown |} |} /\
    map HoroscopeProfiles.name shown = [Some "Me"].
Proof.
  destruct (updateProfile_then_listProfiles_shows_the_update
              (Sample.rt 500%Z "x") (Sample.rename_only "P1" "Me")
              (Sample.as_user Sample.u1) Sample.u1 Sample.with_P1 eq_refl)
    as (shown & Hrun & _).
  - exists Sample.new_P1. split; [left; reflexivity | split; reflexivity].
  - exists shown. split; [exact Hrun|].
    vm_compute in Hrun. now injection Hrun as <-.
Defined.

(** X18.  A profile can be used by its creator only.  In a database whose
    foreign keys hold, after a successful
    [createProfile] by one user, a caller with a different user identifier
    gets NOT_FOUND from [updateProfile] and [deleteProfile] on the returned
    identifier and FORBIDDEN from [logHoroscopeView] naming it, and none of
    these calls changes a table; the creator's own [deleteProfile]
    succeeds. *)
Theorem created_profile_is_private_to_its_creator :
  forall (rt rt' : Runtime) (input : CreateProfile.input)
         (upd : UpdateProfile.input) (view : LogHoroscopeView.input)
         (creator other : ActionAPIContext) (u u' : User) (w : World),
    context_user creator = Some u ->
    context_user other = Some u' ->
    user_id u' <> user_id u ->
    foreign_keys_hold (db w) ->
    (forall r, In r (profiles (db w)) ->
               HoroscopeProfiles.id r <> randomUUID rt) ->
    randomUUID rt <> "" ->
    UpdateProfile.id upd = randomUUID rt ->
    LogHoroscopeView.profileId view = Some (randomUUID rt) ->
    let w' := snd (createProfile rt input creator w) in
    let del := {| DeleteProfile.id := randomUUID rt |} in
    fst (updateProfile rt' upd other w')
    = inl (ActionError NOT_FOUND "Profile not found.") /\
    fst (deleteProfile del other w')
    = inl (ActionError NOT_FOUND "Profile not found.") /\
    fst (logHoroscopeView rt' view other w')
    = inl (ActionError FORBIDDEN "Profile not found for this user.") /\
    db (snd (updateProfile rt' upd other w')) = db w' /\
    db (snd (deleteProfile del other w')) = db w' /\
    db (snd (logHoroscopeView rt' view other w')) = db w' /\
    fst (deleteProfile del creator w')
    = inr {| success := true; data := {| data_id := randomUUID rt |} |}.
Proof.
  intros rt rt' input upd view creator other u u' w Hu Hu' Hother Hfk Hfresh
    Hne Hupd Hview w' del.
  assert (Hw' : profiles (db w') = profiles (db w) ++ [new_profile rt input u]).
  { subst w'. now rewrite (createProfile_fresh rt input creator u w Hu Hfresh). }
  assert (Hno : no_owned_profile (randomUUID rt) u' w').
  { intros r Hr [Hid Hown]. rewrite Hw' in Hr. apply in_app_or in Hr.
    destruct Hr as [Hold|[<-|[]]].
    - exact (Hfresh r Hold Hid).
    - apply Hother. symmetry. exact Hown. }
  rewrite (updateProfile_not_found rt' upd other u' w' Hu');
    [|now rewrite Hupd].
  rewrite (deleteProfile_not_found del other u' w' Hu' Hno).
  rewrite (logHoroscopeView_forbidden rt' view other u' (randomUUID rt) w'
             Hu' Hview Hne Hno).
  rewrite (deleteProfile_found del creator u w' Hu).
  - repeat split.
  - exists (new_profile rt input u). split; [|split; reflexivity].
    rewrite Hw'. apply in_or_app. right. now left.
  - assert (Hviews : views (db w') = views (db w)).
    { subst w'.
      now rewrite (createProfile_fresh rt input creator u w Hu Hfresh). }
    intros (v & Hv & Href). rewrite Hviews in Hv.
    apply (fresh_profile_is_not_viewed _ _ Hfk Hfresh). now exists v.
Qed.

Lemma created_profile_is_private_to_its_creator_witness :
  fst (deleteProfile {| DeleteProfile.id := "P1" |}
         (Sample.as_user Sample.u2) Sample.with_P1)
  = inl (ActionError NOT_FOUND "Profile not found.") /\
  fst (logHoroscopeView (Sample.rt 9%Z "V1") (Sample.view (Some "P1") None)
         (Sample.as_user Sample.u2) Sample.with_P1)
  = inl (ActionError FORBIDDEN "Profile not found for this user.") /\
  fst (deleteProfile {| DeleteProfile.id := "P1" |}
         (Sample.as_user Sample.u1) Sample.with_P1)
  = inr {| success := true; data := {| data_id := "P1" |} |}.
Proof.
  destruct (created_profile_is_private_to_its_creator
              (Sample.rt 100%Z "P1") (Sample.rt 9%Z "V1") Sample.self_aries
              (Sample.rename_only "P1" "Me") (Sample.view (Some "P1") None)
              (Sample.as_user Sample.u1) (Sample.as_user Sample.u2)
              Sample.u1 Sample.u2 Sample.empty eq_refl eq_refl)
    as (_ & Hdel & Hview & _ & _ & _ & Hown);
    try reflexivity; try discriminate.
  - intros v [].
  - intros r [].
  - split; [exact Hdel | split; [exact Hview | exact Hown]].
Defined.

(** ** References stay valid *)

Lemma reference_exists_more (ref : option string) (keys keys' : list string) :
  (forall k, In k keys -> In k keys') ->
  reference_exists ref keys = true -> reference_exists ref keys' = true.
Proof.
  destruct ref as [k|]; [|reflexivity].
  rewrite !reference_exists_some. auto.
Qed.

Lemma foreign_keys_after_more_rows (d d' : Database) :
  views d' = views d ->
  (forall k, In k (map HoroscopeProfiles.id (profiles d)) ->
             In k (map HoroscopeProfiles.id (profiles d'))) ->
  (forall k, In k (map DailyHoroscopes.id (horoscopes d)) ->
             In k (map DailyHoroscopes.id (horoscopes d'))) ->
  foreign_keys_hold d -> foreign_keys_hold d'.
Proof.
  intros Hv Hp Hh Hfk v Hin. rewrite Hv in Hin. specialize (Hfk v Hin).
  cbn [references_exist HoroscopeViewsT] in *.
  apply andb_true_iff in Hfk. destruct Hfk as [H1 H2].
  apply andb_true_iff. split.
  - exact (reference_exists_more _ _ _ Hp H1).
  - exact (reference_exists_more _ _ _ Hh H2).
Qed.

Lemma foreign_keys_insert_profile (r : HoroscopeProfiles.row) :
  preserves foreign_keys_hold (insert HoroscopeProfilesT r).
Proof.
  intros w Hfk. unfold insert.
  cbn [rows key table store references_exist HoroscopeProfilesT].
  destruct (existsb _ (profiles (db w))); cbn [negb snd db record];
    [exact Hfk|].
  apply (foreign_keys_after_more_rows (db w)); try exact Hfk; try reflexivity;
    cbn [profiles horoscopes]; auto.
  intros k Hk. rewrite map_app. apply in_or_app. now left.
Qed.

Lemma foreign_keys_insert_horoscope (r : DailyHoroscopes.row) :
  preserves foreign_keys_hold (insert DailyHoroscopesT r).
Proof.
  intros w Hfk. unfold insert.
  cbn [rows key table store references_exist DailyHoroscopesT].
  destruct (existsb _ (horoscopes (db w))); cbn [negb snd db record];
    [exact Hfk|].
  apply (foreign_keys_after_more_rows (db w)); try exact Hfk; try reflexivity;
    cbn [profiles horoscopes]; auto.
  intros k Hk. rewrite map_app. apply in_or_app. now left.
Qed.

Lemma foreign_keys_insert_view (v0 : HoroscopeViews.row) :
  preserves foreign_keys_hold (insert HoroscopeViewsT v0).
Proof.
  intros w Hfk. unfold insert.
  cbn [rows key table store HoroscopeViewsT].
  destruct (existsb _ (views (db w))); cbn [snd db record]; [exact Hfk|].
  destruct (references_exist _ v0 (db w)) eqn:Hnew; cbn [negb snd db record];
    [|exact Hfk].
  intros v Hv. cbn [views] in Hv. apply in_app_or in Hv.
  destruct Hv as [Hold|[<-|[]]]; [exact (Hfk v Hold) | exact Hnew].
Qed.

Lemma foreign_keys_update_profiles (u : HoroscopeProfiles.updates)
  (c : Condition HoroscopeProfiles.row) :
  preserves foreign_keys_hold
    (update HoroscopeProfilesT (HoroscopeProfiles.no_values u)
       (HoroscopeProfiles.apply u) c).
Proof.
  intros w Hfk. unfold update.
  destruct (HoroscopeProfiles.no_values u); [exact Hfk|].
  cbn [snd db record store rows HoroscopeProfilesT].
  apply (foreign_keys_after_more_rows (db w)); try exact Hfk; try reflexivity;
    cbn [profiles horoscopes]; auto.
  intros k Hk. now rewrite (keys_after_rewrite _ HoroscopeProfiles.id).
Qed.

Lemma foreign_keys_update_horoscopes (u : DailyHoroscopes.updates)
  (c : Condition DailyHoroscopes.row) :
  preserves foreign_keys_hold
    (update DailyHoroscopesT (DailyHoroscopes.no_values u)
       (DailyHoroscopes.apply u) c).
Proof.
  intros w Hfk. unfold update.
  destruct (DailyHoroscopes.no_values u); [exact Hfk|].
  cbn [snd db record store rows DailyHoroscopesT].
  apply (foreign_keys_after_more_rows (db w)); try exact Hfk; try reflexivity;
    cbn [profiles horoscopes]; auto.
  intros k Hk. now rewrite (keys_after_rewrite _ DailyHoroscopes.id).
Qed.

Lemma foreign_keys_delete_profiles (c : Condition HoroscopeProfiles.row) :
  preserves foreign_keys_hold (delete HoroscopeProfilesT c).
Proof.
  intros w Hfk. unfold delete.
  cbn [rows table store referenced HoroscopeProfilesT].
  destruct (existsb _ (profiles (db w))) eqn:Hreferred;
    cbn [snd db record]; [exact Hfk|].
  intros v Hv. cbn [views] in Hv. specialize (Hfk v Hv).
  cbn [references_exist HoroscopeViewsT profiles horoscopes] in *.
  apply andb_true_iff in Hfk. destruct Hfk as [H1 H2].
  apply andb_true_iff. split; [|exact H2].
  destruct (HoroscopeViews.profileId v) as [k|] eqn:Href; [|reflexivity].
  apply reference_exists_some, in_map_iff in H1.
  destruct H1 as (r & Hk & Hr).
  apply reference_exists_some, in_map_iff. exists r. split; [exact Hk|].
  apply filter_In. split; [exact Hr|].
  destruct (c r) eqn:Hc; [|reflexivity].
  assert (Hex : existsb
                  (fun r => c r
                            && existsb
                                 (fun v => refers_to (HoroscopeViews.profileId v)
                                             (HoroscopeProfiles.id r))
                                 (views (db w)))
                  (profiles (db w)) = true).
  { apply existsb_exists. exists r. split; [exact Hr|]. rewrite Hc.
    apply existsb_exists. exists v. split; [exact Hv|].
    apply refers_to_true. now rewrite Href, Hk. }
  congruence.
Qed.

#[local] Hint Resolve foreign_keys_insert_profile foreign_keys_insert_horoscope
  foreign_keys_insert_view foreign_keys_update_profiles
  foreign_keys_update_horoscopes foreign_keys_delete_profiles : keys.

(** X19.  References stay valid: if every reference of every view row
    names a stored profile or horoscope (or is NULL) before a request, the
    same holds after it, whatever the request and its outcome; in
    particular no [deleteProfile] leaves a view pointing at a profile that
    is gone. *)
Theorem server_keeps_references_valid :
  forall (rt : Runtime) (request : Request) (context : ActionAPIContext)
         (w : World),
    foreign_keys_hold (db w) ->
    foreign_keys_hold (db (snd (server rt request context w))).
Proof.
  intros rt request context.
  assert (H : preserves foreign_keys_hold (server rt request context));
    [|exact H].
  destruct request; cbn [server]; unfold reply;
    apply preserves_bind; try (intros ?; apply preserves_ret);
    unfold_handlers; step_preserves.
Qed.

Lemma server_keeps_references_valid_witness :
  foreign_keys_hold
    (db (snd (server (Sample.rt 9%Z "V1")
                (LogHoroscopeViewRequest
                   (Sample.view (Some "P1") (Some "H2")))
                (Sample.as_user Sample.u1) Sample.with_H1_H2))).
Proof.
  apply server_keeps_references_valid. intros v [].
Defined.

(** A profile that a view refers to cannot be deleted: U1 logs a view of P1
    and then asks to delete P1. *)
Example scenario_viewed_profile_is_kept :
  let viewed :=
    snd (logHoroscopeView (Sample.rt 9%Z "V1") (Sample.view (Some "P1") None)
           (Sample.as_user Sample.u1) Sample.with_P1) in
  let outcome :=
    deleteProfile {| DeleteProfile.id := "P1" |} (Sample.as_user Sample.u1)
      viewed in
  map HoroscopeViews.profileId (views (db viewed)) = [Some "P1"] /\
  fst outcome = inl (ForeignKeyViolation T_HoroscopeProfiles) /\
  db (snd outcome) = db viewed.
Proof. repeat split. Qed.
